(** * document_processor/processor.py: a shallow embedding

    The module chains five functions over PyPDF2 and the file system:
    [get_document], [read_document], [get_document_meta_data],
    [extract_data_from_page] and [extract_image].  Python's effects
    (exceptions, [print], file writes) are threaded through an explicit
    world; the PDF decoder and the file system are the two collaborators
    the module treats as black boxes. *)

From Stdlib Require Import ZArith String Ascii List Lia.
From Stdlib.Strings Require Import Byte.
From Stdlib Require Import DecimalString DecimalNat.
From stdpp Require Import base option list gmap strings.

Local Open Scope string_scope.
Local Open Scope Z_scope.

(** ** Python exceptions *)

(** The exception classes the module raises or meets.  [KeyboardInterrupt]
    and [SystemExit] derive from [BaseException] only, so a clause
    [except Exception] lets them through. *)
Inductive exn_class : Type :=
  | FileNotFoundError
  | ValueError
  | TypeError
  | AttributeError
  | IndexError
  | OSError
  | PermissionError
  | PdfReadError
  | ImageExtractionError
  | KeyboardInterrupt
  | SystemExit.

(** Modelled from the spec: [ImageExtractionError] is imported from
    [document_processor/exceptions.py], which is missing; the spec calls
    it "a distinct, catchable error", so it is taken to derive from
    [Exception] like every user-defined error. *)
Definition is_Exception_class (c : exn_class) : bool :=
  match c with
  | KeyboardInterrupt | SystemExit => false
  | _ => true
  end.

(** An exception instance: its class, the text [str(e)] gives, and the
    exception that was being handled when it was raised
    ([__context__]). *)
#[warnings="-register-all"] Inductive exn : Type :=
  | Exn (cls : exn_class) (msg : string) (context : option exn).

Definition exn_cls (e : exn) : exn_class := let 'Exn c _ _ := e in c.
Definition exn_str (e : exn) : string := let 'Exn _ m _ := e in m.
Definition exn_context (e : exn) : option exn := let 'Exn _ _ c := e in c.
Definition is_Exception (e : exn) : bool := is_Exception_class (exn_cls e).

(** [Cls(msg)] raised outside any handler. *)
Definition new_exn (c : exn_class) (m : string) : exn := Exn c m None.

(** ** The world: files, write failures, and the trace of effects *)

Abbreviation Path := string (only parsing).

Inductive event : Type :=
  | EvPrint (line : string)
  | EvOpenPdf (p : Path)
  | EvWrite (p : Path) (data : list byte).

(** [files] maps each existing path to its bytes; [denied] gives, for the
    paths the operating system refuses to open for writing, the error it
    raises; [events] is the trace of what the program did so far. *)
Record World : Type := mkWorld {
  files : gmap string (list byte);
  denied : gmap string exn;
  events : list event
}.

Definition log (ev : event) (w : World) : World :=
  {| files := files w; denied := denied w; events := (events w ++ [ev])%list |}.

Definition store (p : Path) (data : list byte) (w : World) : World :=
  {| files := <[p := data]> (files w);
     denied := denied w;
     events := (events w ++ [EvWrite p data])%list |}.

(** ** Computations that may raise *)

Inductive outcome (A : Type) : Type :=
  | Return (a : A)
  | Raise (e : exn).
Arguments Return {A} a.
Arguments Raise {A} e.

Definition M (A : Type) : Type := World -> outcome A * World.

Definition ret {A} (a : A) : M A := fun w => (Return a, w).
Definition raise {A} (e : exn) : M A := fun w => (Raise e, w).

Definition bind {A B} (m : M A) (k : A -> M B) : M B :=
  fun w =>
    match m w with
    | (Return a, w') => k a w'
    | (Raise e, w') => (Raise e, w')
    end.

(** [try: body / except Exception as e: handler e]. *)
Definition try_except {A} (body : M A) (handler : exn -> M A) : M A :=
  fun w =>
    match body w with
    | (Return a, w') => (Return a, w')
    | (Raise e, w') =>
        if is_Exception e then handler e w' else (Raise e, w')
    end.

(** [raise new] executed inside the handler of [cause]. *)
Definition raise_in_handler {A} (cause : exn) (c : exn_class) (m : string) : M A :=
  raise (Exn c m (Some cause)).

Declare Scope py_scope.
Delimit Scope py_scope with py.
Notation "x <- c ;; k" := (bind c (fun x => k))
  (at level 100, c at next level, right associativity) : py_scope.
Notation "c ;;; k" := (bind c (fun _ => k))
  (at level 100, right associativity) : py_scope.
Local Open Scope py_scope.

(** [print(line)]. *)
Definition print (line : string) : M unit :=
  fun w => (Return tt, log (EvPrint line) w).

(** [Path.exists()]. *)
Definition path_exists (p : Path) : M bool :=
  fun w => (Return (bool_decide (is_Some (files w !! p))), w).

(** [with open(p, "wb") as fp: fp.write(data)].  A refused [open]
    raises and leaves the file system as it was; a write that fails
    after the file was opened is not modelled. *)
Definition write_file (p : Path) (data : list byte) : M unit :=
  fun w =>
    match denied w !! p with
    | Some e => (Raise e, w)
    | None => (Return tt, store p data w)
    end.

(** [storage_path / name] for a [name] that is a plain relative file
    name.  The names built by [extract_image] start with a digit, so
    pathlib never treats them as absolute. *)
Definition path_div (dir : Path) (name : string) : Path :=
  dir ++ "/" ++ name.

(** [f"{count}"] for a non-negative counter. *)
Definition format_nat (n : nat) : string :=
  NilZero.string_of_uint (Nat.to_uint n).

(** ** PyPDF2 objects *)

(** [PdfReader.metadata] is [None] when the file has no document
    information dictionary; each entry of the dictionary is optional. *)
Record DocumentInformation : Type := mkInfo {
  title : option string;
  author : option string;
  subject : option string;
  producer : option string;
  creator : option string
}.

Record ImageFile : Type := mkImage {
  name : string;
  data : list byte
}.

(** A page: what [page.extract_text()] and [page.images] give. *)
Record PageObject : Type := mkPage {
  page_text : exn + string;
  page_images : exn + list ImageFile
}.

Record PdfReader : Type := mkReader {
  metadata : option DocumentInformation;
  pages : list PageObject
}.

(** Python values stored in the metadata dictionary. *)
Inductive pyval : Type :=
  | VNone
  | VInt (z : Z)
  | VStr (s : string).

Definition of_optional (o : option string) : pyval :=
  match o with
  | None => VNone
  | Some s => VStr s
  end.

(** [page.extract_text()]. *)
Definition extract_text (page : PageObject) : M string :=
  match page_text page with
  | inl e => raise e
  | inr s => ret s
  end.

(** [page.images]. *)
Definition get_images (page : PageObject) : M (list ImageFile) :=
  match page_images page with
  | inl e => raise e
  | inr l => ret l
  end.

(** [reader.pages[index]]: PyPDF2's page list counts a negative index
    from the end and raises [IndexError] out of range. *)
Definition pages_getitem (ps : list PageObject) (index : Z) : M PageObject :=
  let len_self := Z.of_nat (length ps) in
  let index := if index <? 0 then len_self + index else index in
  if (index <? 0) || (len_self <=? index)
  then raise (new_exn IndexError "sequence index out of range")
  else match ps !! Z.to_nat index with
       | Some p => ret p
       | None => raise (new_exn IndexError "sequence index out of range")
       end.

(** The dynamic argument of the extractors: [None], a [Path] or an open
    [PdfReader]. *)
Inductive document : Type :=
  | DNone
  | DPath (p : Path)
  | DReader (r : PdfReader).

Definition of_handle (o : option PdfReader) : document :=
  match o with
  | None => DNone
  | Some r => DReader r
  end.

(** Attribute access on [reader.metadata], which may be [None]. *)
Definition getattr (data : option DocumentInformation) (attr : string)
    (field : DocumentInformation -> option string) : M pyval :=
  match data with
  | None =>
      raise (new_exn AttributeError
               ("'NoneType' object has no attribute '" ++ attr ++ "'"))
  | Some d => ret (of_optional (field d))
  end.

(** [reader.pages] on what [read_document] returned. *)
Definition getattr_pages (reader : option PdfReader) : M (list PageObject) :=
  match reader with
  | None =>
      raise (new_exn AttributeError
               "'NoneType' object has no attribute 'pages'")
  | Some r => ret (pages r)
  end.

(** [meta_data[key] = v] on what [get_document_meta_data] returned. *)
Definition setitem (meta_data : option (gmap string pyval)) (key : string)
    (v : pyval) : M (gmap string pyval) :=
  match meta_data with
  | None =>
      raise (new_exn TypeError
               "'NoneType' object does not support item assignment")
  | Some d => ret (<[key := v]> d)
  end.

(** ** [pathlib.Path(s)] on a POSIX system *)

(** The text [s] cut at every ['/']. *)
Fixpoint split_slash (s : string) : list string :=
  match s with
  | EmptyString => [EmptyString]
  | String c rest =>
      if Ascii.eqb c "/" then EmptyString :: split_slash rest
      else match split_slash rest with
           | [] => [String c EmptyString]
           | x :: xs => String c x :: xs
           end
  end.

(** ["/".join(parts)]. *)
Fixpoint join_slash (parts : list string) : string :=
  match parts with
  | [] => ""
  | x :: rest =>
      match rest with
      | [] => x
      | _ => x ++ "/" ++ join_slash rest
      end
  end.

Definition starts_with_slash (s : string) : bool :=
  match s with
  | String c _ => Ascii.eqb c "/"
  | EmptyString => false
  end.

Definition behead (s : string) : string :=
  match s with
  | String _ rest => rest
  | EmptyString => EmptyString
  end.

(** The root of a POSIX path: exactly two leading slashes are kept, one
    or more than two count as one. *)
Definition path_root (s : string) : string :=
  if starts_with_slash s
  then if starts_with_slash (behead s)
       then if starts_with_slash (behead (behead s)) then "/" else "//"
       else "/"
  else "".

(** Empty components and ["."] are dropped; [".."] is kept. *)
Definition kept (x : string) : bool :=
  negb (String.eqb x "" || String.eqb x ".").

(** [str(Path(s))]: the root, then the kept components joined by
    slashes; the empty relative path is written ["."]. *)
Definition Path_of_str (s : string) : Path :=
  let root := path_root s in
  let tail := filter (fun x => kept x = true) (split_slash s) in
  match tail with
  | [] => if String.eqb root "" then "." else root
  | _ => root ++ join_slash tail
  end.

Fixpoint no_slash (s : string) : bool :=
  match s with
  | EmptyString => true
  | String c rest => negb (Ascii.eqb c "/") && no_slash rest
  end.

(** ** The functions of processor.py *)

(** [get_document] takes a [str] or a [Path]; a [str] is first turned
    into a [Path], which normalises its text. *)
Inductive path_like : Type :=
  | AsStr (s : string)
  | AsPath (p : Path).

Definition get_document (document_path : path_like) : M Path :=
  let document_path :=
    match document_path with
    | AsStr s => Path_of_str s
    | AsPath p => p
    end in
  found <- path_exists document_path ;;
  if negb found
  then raise (new_exn FileNotFoundError
                ("File " ++ document_path ++ " not found"))
  else ret document_path.

Definition image_path (storage_path : Path) (count : nat) (image_file_object : ImageFile) : Path :=
  path_div storage_path (format_nat count ++ "_" ++ name image_file_object).

(** The [for] loop of [extract_image], with its two loop variables. *)
Fixpoint extract_image_loop (storage_path : Path) (todo : list ImageFile)
    (count : nat) (images : list Path) : M (list Path) :=
  match todo with
  | [] => ret images
  | image_file_object :: rest =>
      let image_path := image_path storage_path count image_file_object in
      st <- try_except
              (write_file image_path (data image_file_object) ;;;
               ret ((images ++ [image_path])%list, S count))
              (fun e =>
                 raise_in_handler e ImageExtractionError
                   ("Error extracting image: " ++ exn_str e)) ;;
      extract_image_loop storage_path rest (snd st) (fst st)
  end.

Definition extract_image (page : PageObject) (storage_path : Path) : M (list Path) :=
  let count := 0%nat in
  let images := [] in
  todo <- get_images page ;;
  extract_image_loop storage_path todo count images.

Section Processor.

(** The PDF decoder behind [PdfReader(path)], applied to the bytes of
    the file. *)
Variable pdf_decode : list byte -> exn + PdfReader.

(** [PdfReader(document_path)]. *)
Definition PdfReader_open (document_path : Path) : M PdfReader :=
  fun w =>
    let w' := log (EvOpenPdf document_path) w in
    match files w !! document_path with
    | None =>
        (Raise (new_exn FileNotFoundError
                  ("[Errno 2] No such file or directory: '"
                     ++ document_path ++ "'")), w')
    | Some bytes =>
        match pdf_decode bytes with
        | inl e => (Raise e, w')
        | inr reader => (Return reader, w')
        end
    end.

Definition read_document (document_path : Path) : M (option PdfReader) :=
  document_path <- get_document (AsPath document_path) ;;
  try_except
    (reader <- PdfReader_open document_path ;;
     ret (Some reader))
    (fun e =>
       print ("Error reading document: " ++ exn_str e) ;;;
       ret None).

Definition get_document_meta_data (document : document)
    : M (option (gmap string pyval)) :=
  reader <- match document with
            | DPath p =>
                document <- get_document (AsPath p) ;;
                read_document document
            | DReader r => ret (Some r)
            | DNone => ret None
            end ;;
  match reader with
  | None => ret None
  | Some reader =>
      let meta_data : gmap string pyval := ∅ in
      let data := metadata reader in
      let meta_data :=
        <["num_pages" := VInt (Z.of_nat (length (pages reader)))]> meta_data in
      v <- getattr data "title" title ;;
      let meta_data := <["title" := v]> meta_data in
      v <- getattr data "author" author ;;
      let meta_data := <["author" := v]> meta_data in
      v <- getattr data "subject" subject ;;
      let meta_data := <["subject" := v]> meta_data in
      v <- getattr data "producer" producer ;;
      let meta_data := <["producer" := v]> meta_data in
      v <- getattr data "creator" creator ;;
      let meta_data := <["creator" := v]> meta_data in
      ret (Some meta_data)
  end.

Definition extract_data_from_page (reader : document) (page_number : Z)
    (storage_path : Path)
    : M (option (string * list Path * gmap string pyval)) :=
  let page_number := page_number - 1 in
  if page_number <? 0
  then raise (new_exn ValueError "Page number should be greater than 0")
  else
    match reader with
    | DNone => ret None
    | _ =>
        reader <- match reader with
                  | DPath p => read_document p
                  | DReader r => ret (Some r)
                  | DNone => ret None
                  end ;;
        meta_data <- get_document_meta_data (of_handle reader) ;;
        meta_data <- setitem meta_data "page" (VInt (page_number + 1)) ;;
        try_except
          (ps <- getattr_pages reader ;;
           page <- pages_getitem ps page_number ;;
           text <- extract_text page ;;
           images <- extract_image page storage_path ;;
           ret (Some (text, images, meta_data)))
          (fun e =>
             print ("Error extracting text: " ++ exn_str e) ;;;
             ret None)
    end.

End Processor.

(** ** Vocabulary of the statements *)

(** The page-count entry of a metadata dictionary; the code stores it
    under the key ["num_pages"]. *)
Definition page_count (meta_data : gmap string pyval) : option pyval :=
  meta_data !! "num_pages".

(** The dictionary [get_document_meta_data] builds for [n] pages and the
    information dictionary [d]. *)
Definition metadata_record (n : nat) (d : DocumentInformation) : gmap string pyval :=
  <["creator" := of_optional (creator d)]>
  (<["producer" := of_optional (producer d)]>
  (<["subject" := of_optional (subject d)]>
  (<["author" := of_optional (author d)]>
  (<["title" := of_optional (title d)]>
  (<["num_pages" := VInt (Z.of_nat n)]> ∅))))).

(** The writes of one [extract_image] call that meets no refusal: image
    number [count], [count + 1], ... of [todo], in order. *)
Fixpoint numbered_writes (storage_path : Path) (count : nat) (todo : list ImageFile)
    : list (Path * list byte) :=
  match todo with
  | [] => []
  | image_file_object :: rest =>
      (image_path storage_path count image_file_object, data image_file_object)
        :: numbered_writes storage_path (S count) rest
  end.

Definition apply_writes (ws : list (Path * list byte)) (w : World) : World :=
  foldl (fun w pd => store pd.1 pd.2 w) w ws.

(** [NilZero.string_of_uint] prints the empty numeral as ["0"]. *)
Definition nonnil (d : Decimal.uint) : Decimal.uint :=
  match d with
  | Decimal.Nil => Decimal.D0 Decimal.Nil
  | _ => d
  end.

(** The try block of [extract_data_from_page] for an open reader, up to
    the pairing with the metadata. *)
Definition page_steps (r : PdfReader) (index : Z) (storage_path : Path)
    : M (string * list Path) :=
  page <- pages_getitem (pages r) index ;;
  text <- extract_text page ;;
  images <- extract_image page storage_path ;;
  ret (text, images).

(** ** Sample documents *)

Definition example_info : DocumentInformation :=
  {| title := Some "Example Title";
     author := Some "Author Name";
     subject := Some "Example Subject";
     producer := Some "PDF Producer";
     creator := Some "PDF Creator" |}.

Definition example_record : gmap string pyval :=
  <["num_pages" := VInt 10]>
  (<["title" := VStr "Example Title"]>
  (<["author" := VStr "Author Name"]>
  (<["subject" := VStr "Example Subject"]>
  (<["producer" := VStr "PDF Producer"]>
  (<["creator" := VStr "PDF Creator"]> ∅))))).

Definition two_images : list ImageFile :=
  [ {| name := "img1.png"; data := [x89; x50] |};
    {| name := "img2.png"; data := [x89; x51] |} ].

Definition example_page : PageObject :=
  {| page_text := inr "Extracted text"; page_images := inr two_images |}.

Definition example_reader : PdfReader :=
  {| metadata := Some example_info; pages := replicate 10 example_page |}.

(** A one-page document whose text layer cannot be decoded. *)
Definition garbled_reader : PdfReader :=
  {| metadata := Some example_info;
     pages := [ {| page_text := inl (new_exn PdfReadError "Unexpected end of stream");
                   page_images := inr [] |} ] |}.

(** A toy decoder: a file that starts with ['%'] is the example
    document, anything else is rejected. *)
Definition example_decode (bytes : list byte) : exn + PdfReader :=
  match bytes with
  | x25 :: _ => inr example_reader
  | _ => inl (new_exn PdfReadError "EOF marker not found")
  end.

Definition example_world : World :=
  {| files := {[ "report.pdf" := [x25; x50; x44; x46]; "notes.txt" := [x68; x69] ]};
     denied := ∅;
     events := [] |}.

(** The same world once the storage directory refuses the second
    image. *)
Definition readonly_world : World :=
  {| files := files example_world;
     denied := {[ "images/1_img2.png" :=
                    new_exn PermissionError
                      "[Errno 13] Permission denied: 'images/1_img2.png'" ]};
     events := [] |}.

(** ** Frames on the effects of a call *)

(** [w'] comes after [w] when the refusals are the same, the trace was
    only extended, no file disappeared, and every file outside [P] has
    the bytes it had. *)
Definition evolves (P : string -> Prop) (w w' : World) : Prop :=
  denied w' = denied w
  /\ (exists evs, events w' = (events w ++ evs)%list)
  /\ (forall p, is_Some (files w !! p) -> is_Some (files w' !! p))
  /\ (forall p, ~ P p -> files w' !! p = files w !! p).

Definition writes_only {A} (P : string -> Prop) (m : M A) : Prop :=
  forall w, evolves P w (snd (m w)).

(** The paths [extract_image] may write under [storage_path]. *)
Definition image_target (storage_path : Path) (p : Path) : Prop :=
  exists count img, p = image_path storage_path count img.

Definition nowhere (p : Path) : Prop := False.

(** What [extract_image] raises when [open] refuses with [cause]: the
    handler wraps an [Exception]; anything else passes as it is. *)
Definition refusal (cause : exn) : exn :=
  if is_Exception cause
  then Exn ImageExtractionError ("Error extracting image: " ++ exn_str cause) (Some cause)
  else cause.

(** ** More sample documents *)

(** Only the author is recorded. *)
Definition sparse_info : DocumentInformation :=
  {| title := None; author := Some "Author Name"; subject := None;
     producer := None; creator := None |}.

Definition sparse_reader : PdfReader :=
  {| metadata := Some sparse_info; pages := [] |}.

(** No document information dictionary at all. *)
Definition bare_reader : PdfReader :=
  {| metadata := None; pages := [example_page] |}.

(** A page whose only image has the name of the first image of
    [example_page]. *)
Definition cover_page : PageObject :=
  {| page_text := inr "Cover";
     page_images := inr [ {| name := "img1.png"; data := [xff; xd8] |} ] |}.

Definition broken_images_page : PageObject :=
  {| page_text := inr "Body";
     page_images := inl (new_exn PdfReadError "Invalid image stream") |}.

(** The user interrupts the program while the first image is opened. *)
Definition interrupted_world : World :=
  {| files := files example_world;
     denied := {[ "images/0_img1.png" := new_exn KeyboardInterrupt "" ]};
     events := [] |}.

(** The text of the path [get_document] checks: a [str] is normalised
    by [Path]. *)
Definition path_text (a : path_like) : Path :=
  match a with
  | AsStr s => Path_of_str s
  | AsPath p => p
  end.

(** A decoder that is interrupted by the user. *)
Definition interrupted_decode (bytes : list byte) : exn + PdfReader :=
  inl (new_exn KeyboardInterrupt "").

(** A page with two images that carry the same name. *)
Definition twins_page : PageObject :=
  {| page_text := inr "Twins";
     page_images := inr [ {| name := "Im0.png"; data := [x01] |};
                          {| name := "Im0.png"; data := [x02] |} ] |}.

(** ** Basic facts *)

Lemma bind_Return {A B} (m : M A) (k : A -> M B) w a w' :
  m w = (Return a, w') -> bind m k w = k a w'.
Proof. intros H. unfold bind. now rewrite H. Qed.

Lemma bind_Raise {A B} (m : M A) (k : A -> M B) w e w' :
  m w = (Raise e, w') -> bind m k w = (Raise e, w').
Proof. intros H. unfold bind. now rewrite H. Qed.

Lemma get_document_found p w :
  is_Some (files w !! p) -> get_document (AsPath p) w = (Return p, w).
Proof.
  intros H. unfold get_document, bind, path_exists.
  now rewrite bool_decide_eq_true_2.
Qed.

Lemma get_document_missing p w :
  files w !! p = None ->
  get_document (AsPath p) w =
    (Raise (new_exn FileNotFoundError ("File " ++ p ++ " not found")), w).
Proof.
  intros H. unfold get_document, bind, path_exists.
  rewrite bool_decide_eq_false_2; [reflexivity|].
  rewrite H. intros [x Hx]. discriminate.
Qed.

Section ProcessorFacts.

Variable pdf_decode : list byte -> exn + PdfReader.

Lemma read_document_decoded p w bytes r :
  files w !! p = Some bytes -> pdf_decode bytes = inr r ->
  read_document pdf_decode p w = (Return (Some r), log (EvOpenPdf p) w).
Proof.
  intros Hf Hd. unfold read_document.
  rewrite (bind_Return _ _ _ _ _ (get_document_found p w (mk_is_Some _ _ Hf))).
  unfold try_except, bind, PdfReader_open. now rewrite Hf, Hd.
Qed.

Lemma read_document_undecodable p w bytes e :
  files w !! p = Some bytes -> pdf_decode bytes = inl e ->
  is_Exception e = true ->
  read_document pdf_decode p w =
    (Return None,
     log (EvPrint ("Error reading document: " ++ exn_str e))
       (log (EvOpenPdf p) w)).
Proof.
  intros Hf Hd He. unfold read_document.
  rewrite (bind_Return _ _ _ _ _ (get_document_found p w (mk_is_Some _ _ Hf))).
  unfold try_except, bind, PdfReader_open. now rewrite Hf, Hd, He.
Qed.

Lemma get_document_meta_data_reader r d w :
  metadata r = Some d ->
  get_document_meta_data pdf_decode (DReader r) w =
    (Return (Some (metadata_record (length (pages r)) d)), w).
Proof.
  intros Hm. unfold get_document_meta_data, bind, ret, getattr. simpl.
  now rewrite Hm.
Qed.

Lemma get_document_meta_data_None w :
  get_document_meta_data pdf_decode DNone w = (Return None, w).
Proof. reflexivity. Qed.

End ProcessorFacts.

Lemma example_record_eq : metadata_record 10 example_info = example_record.
Proof. vm_compute. reflexivity. Qed.

(** ** The Document Reader *)

(** C10: [read_document] raises [FileNotFoundError] for a path that does
    not exist, touching nothing; for an existing file whose decode
    raises an error it prints the diagnostic and returns [None]. *)
Theorem read_document_failure_policy
    (pdf_decode : list byte -> exn + PdfReader) (p : Path) (w : World) :
  (files w !! p = None ->
     read_document pdf_decode p w =
       (Raise (new_exn FileNotFoundError ("File " ++ p ++ " not found")), w))
  /\ (forall bytes e,
        files w !! p = Some bytes ->
        pdf_decode bytes = inl e ->
        is_Exception e = true ->
        read_document pdf_decode p w =
          (Return None,
           log (EvPrint ("Error reading document: " ++ exn_str e))
             (log (EvOpenPdf p) w))).
Proof.
  split.
  - intros Hmiss. unfold read_document.
    apply bind_Raise, get_document_missing, Hmiss.
  - intros bytes e Hf Hd He.
    eapply read_document_undecodable; eassumption.
Qed.

Lemma read_document_failure_policy_witness :
  (files example_world !! "missing.pdf" = None
   /\ read_document example_decode "missing.pdf" example_world =
        (Raise (new_exn FileNotFoundError "File missing.pdf not found"),
         example_world))
  /\ (files example_world !! "notes.txt" = Some [x68; x69]
      /\ example_decode [x68; x69] = inl (new_exn PdfReadError "EOF marker not found")
      /\ read_document example_decode "notes.txt" example_world =
           (Return None,
            log (EvPrint "Error reading document: EOF marker not found")
              (log (EvOpenPdf "notes.txt") example_world))).
Proof.
  split.
  - split; [vm_compute; reflexivity|].
    apply (proj1 (read_document_failure_policy example_decode "missing.pdf" example_world)).
    vm_compute; reflexivity.
  - split; [vm_compute; reflexivity|]. split; [reflexivity|].
    apply (proj2 (read_document_failure_policy example_decode "notes.txt" example_world)
             [x68; x69] (new_exn PdfReadError "EOF marker not found"));
      vm_compute; reflexivity.
Defined.

(** ** The Metadata Extractor *)

(** C2: on a reader whose [metadata] is [None] the extractor does not
    return a record of null fields: [data.title] raises
    [AttributeError]. *)
Theorem get_document_meta_data_absent_metadata_raises
    (pdf_decode : list byte -> exn + PdfReader) (ps : list PageObject) (w : World) :
  get_document_meta_data pdf_decode (DReader {| metadata := None; pages := ps |}) w =
    (Raise (new_exn AttributeError "'NoneType' object has no attribute 'title'"), w).
Proof. reflexivity. Qed.

(** C3: a readable document of 10 pages with the example metadata gives
    exactly the example record, through an open reader and through a
    path alike. *)
Theorem get_document_meta_data_example_record
    (pdf_decode : list byte -> exn + PdfReader) (r : PdfReader) (w : World) :
  length (pages r) = 10%nat ->
  metadata r = Some example_info ->
  get_document_meta_data pdf_decode (DReader r) w = (Return (Some example_record), w)
  /\ page_count example_record = Some (VInt 10)
  /\ (forall p bytes,
        files w !! p = Some bytes -> pdf_decode bytes = inr r ->
        get_document_meta_data pdf_decode (DPath p) w =
          (Return (Some example_record), log (EvOpenPdf p) w)).
Proof.
  intros Hlen Hmeta. split; [|split].
  - rewrite (get_document_meta_data_reader _ _ _ _ Hmeta), Hlen.
    now rewrite example_record_eq.
  - vm_compute. reflexivity.
  - intros p bytes Hf Hd.
    assert (Hopen : read_document pdf_decode p w = (Return (Some r), log (EvOpenPdf p) w))
      by (eapply read_document_decoded; eassumption).
    pose proof (get_document_meta_data_reader pdf_decode r _ (log (EvOpenPdf p) w) Hmeta) as Hrec.
    unfold get_document_meta_data in *.
    rewrite (bind_Return _ _ w (Some r) (log (EvOpenPdf p) w)).
    + rewrite (bind_Return _ _ (log (EvOpenPdf p) w) (Some r) (log (EvOpenPdf p) w)) in Hrec
        by reflexivity.
      rewrite Hrec, Hlen. now rewrite example_record_eq.
    + rewrite (bind_Return _ _ _ _ _ (get_document_found p w (mk_is_Some _ _ Hf))).
      exact Hopen.
Qed.

Lemma get_document_meta_data_example_record_witness :
  length (pages example_reader) = 10%nat
  /\ metadata example_reader = Some example_info
  /\ get_document_meta_data example_decode (DReader example_reader) example_world =
       (Return (Some example_record), example_world)
  /\ get_document_meta_data example_decode (DPath "report.pdf") example_world =
       (Return (Some example_record), log (EvOpenPdf "report.pdf") example_world).
Proof.
  split; [reflexivity|]. split; [reflexivity|].
  pose proof (get_document_meta_data_example_record example_decode example_reader
                example_world eq_refl eq_refl) as [H1 [_ H3]].
  split; [exact H1|].
  apply (H3 "report.pdf" [x25; x50; x44; x46]); vm_compute; reflexivity.
Defined.

(** ** The Page Extractor: argument checks *)

(** C5: a page number below 1 raises [ValueError] whatever the reader
    argument is, and the world is left as it was: nothing was opened,
    printed or written. *)
Theorem extract_data_from_page_rejects_page_below_one
    (pdf_decode : list byte -> exn + PdfReader) (reader : document)
    (page_number : Z) (storage_path : Path) (w : World) :
  page_number < 1 ->
  extract_data_from_page pdf_decode reader page_number storage_path w =
    (Raise (new_exn ValueError "Page number should be greater than 0"), w).
Proof.
  intros Hn. unfold extract_data_from_page.
  destruct (page_number - 1 <? 0) eqn:Hlt; [reflexivity|].
  apply Z.ltb_ge in Hlt. lia.
Qed.

Lemma extract_data_from_page_rejects_page_below_one_witness :
  0 < 1
  /\ extract_data_from_page example_decode (DPath "report.pdf") 0 "images" example_world =
       (Raise (new_exn ValueError "Page number should be greater than 0"), example_world).
Proof.
  split; [lia|].
  apply (extract_data_from_page_rejects_page_below_one example_decode
           (DPath "report.pdf") 0 "images" example_world).
  lia.
Defined.

(** C4, as stated, fails at page number 0: the page check comes first,
    so an unavailable handle with page 0 raises [ValueError]. *)
Lemma extract_data_from_page_None_page_zero_raises :
  extract_data_from_page example_decode DNone 0 "images" example_world =
    (Raise (new_exn ValueError "Page number should be greater than 0"), example_world)
  /\ fst (extract_data_from_page example_decode DNone 0 "images" example_world)
       <> Return None.
Proof. split; [reflexivity|]. vm_compute. discriminate. Qed.

(** C4, amended: given the unavailable handle [None], the Metadata
    Extractor returns [None], and the Page Extractor returns [None] for
    every page number that is at least 1; neither raises nor touches the
    world. *)
Theorem unavailable_handle_gives_None
    (pdf_decode : list byte -> exn + PdfReader)
    (page_number : Z) (storage_path : Path) (w : World) :
  1 <= page_number ->
  get_document_meta_data pdf_decode DNone w = (Return None, w)
  /\ extract_data_from_page pdf_decode DNone page_number storage_path w =
       (Return None, w).
Proof.
  intros Hn. split; [reflexivity|].
  unfold extract_data_from_page.
  destruct (page_number - 1 <? 0) eqn:Hlt; [|reflexivity].
  apply Z.ltb_lt in Hlt. lia.
Qed.

Lemma unavailable_handle_gives_None_witness :
  1 <= 3
  /\ get_document_meta_data example_decode DNone example_world = (Return None, example_world)
  /\ extract_data_from_page example_decode DNone 3 "images" example_world =
       (Return None, example_world).
Proof.
  split; [lia|].
  apply (unavailable_handle_gives_None example_decode 3 "images" example_world).
  lia.
Defined.

(** C1: for a path to an existing file that does not decode, and a page
    number of at least 1, the Page Extractor does not return [None]:
    after the Reader's diagnostic, the assignment [meta_data['page']]
    on [None] raises [TypeError], outside the try block. *)
Theorem extract_data_from_page_undecodable_path_raises
    (pdf_decode : list byte -> exn + PdfReader) (p : Path) (bytes : list byte)
    (e : exn) (page_number : Z) (storage_path : Path) (w : World) :
  1 <= page_number ->
  files w !! p = Some bytes ->
  pdf_decode bytes = inl e ->
  is_Exception e = true ->
  extract_data_from_page pdf_decode (DPath p) page_number storage_path w =
    (Raise (new_exn TypeError "'NoneType' object does not support item assignment"),
     log (EvPrint ("Error reading document: " ++ exn_str e)) (log (EvOpenPdf p) w)).
Proof.
  intros Hn Hf Hd He. unfold extract_data_from_page.
  destruct (page_number - 1 <? 0) eqn:Hlt; [apply Z.ltb_lt in Hlt; lia|].
  rewrite (bind_Return _ _ _ _ _ (read_document_undecodable pdf_decode p w bytes e Hf Hd He)).
  reflexivity.
Qed.

Lemma extract_data_from_page_undecodable_path_raises_witness :
  1 <= 1
  /\ files example_world !! "notes.txt" = Some [x68; x69]
  /\ extract_data_from_page example_decode (DPath "notes.txt") 1 "images" example_world =
       (Raise (new_exn TypeError "'NoneType' object does not support item assignment"),
        log (EvPrint "Error reading document: EOF marker not found")
          (log (EvOpenPdf "notes.txt") example_world)).
Proof.
  split; [lia|]. split; [vm_compute; reflexivity|].
  apply (extract_data_from_page_undecodable_path_raises example_decode "notes.txt"
           [x68; x69] (new_exn PdfReadError "EOF marker not found") 1 "images"
           example_world); [lia | vm_compute; reflexivity | reflexivity | reflexivity].
Defined.

(** ** File names never collide within one call *)

Lemma string_of_uint_underscore_inj d1 : forall d2 a b,
  (NilEmpty.string_of_uint d1 ++ String "_" a)%string =
  (NilEmpty.string_of_uint d2 ++ String "_" b)%string ->
  d1 = d2.
Proof.
  induction d1; intros [] a b H; simpl in H;
    try discriminate H; try reflexivity;
    injection H as H; f_equal; eapply IHd1; exact H.
Qed.

Lemma format_nat_underscore_inj i j a b :
  (format_nat i ++ "_" ++ a)%string = (format_nat j ++ "_" ++ b)%string -> i = j.
Proof.
  unfold format_nat. intros H.
  assert (Hs : forall d, NilZero.string_of_uint d = NilEmpty.string_of_uint (nonnil d))
    by (intros []; reflexivity).
  rewrite !Hs in H. apply string_of_uint_underscore_inj in H.
  assert (Hn : forall d, Nat.of_uint (nonnil d) = Nat.of_uint d)
    by (intros []; reflexivity).
  rewrite <- (DecimalNat.Unsigned.of_to i), <- (DecimalNat.Unsigned.of_to j).
  now rewrite <- (Hn (Nat.to_uint i)), <- (Hn (Nat.to_uint j)), H.
Qed.

Lemma append_cancel_l (s a b : string) : (s ++ a)%string = (s ++ b)%string -> a = b.
Proof. induction s; simpl; intros H; [exact H | injection H as H; auto]. Qed.

Lemma image_path_inj storage_path i j a b :
  image_path storage_path i a = image_path storage_path j b -> i = j.
Proof.
  unfold image_path, path_div. intros H.
  apply append_cancel_l in H. injection H as H.
  eapply format_nat_underscore_inj; exact H.
Qed.

(** ** The writes of [extract_image] *)

Lemma numbered_writes_imap storage_path todo : forall count,
  numbered_writes storage_path count todo =
    imap (fun i img => (image_path storage_path (count + i) img, data img)) todo.
Proof.
  induction todo as [|img rest IH]; intros count; [reflexivity|].
  rewrite imap_cons. simpl. rewrite Nat.add_0_r, IH. f_equal.
  apply imap_ext. intros i x _. simpl. now rewrite Nat.add_succ_r.
Qed.

Lemma numbered_writes_lookup storage_path todo count i :
  numbered_writes storage_path count todo !! i =
    (fun img => (image_path storage_path (count + i) img, data img)) <$> todo !! i.
Proof. rewrite numbered_writes_imap. apply list_lookup_imap. Qed.

Lemma numbered_writes_paths storage_path todo :
  (numbered_writes storage_path 0 todo).*1 = imap (image_path storage_path) todo.
Proof.
  rewrite numbered_writes_imap, fmap_imap. apply imap_ext. now intros i x _.
Qed.

Lemma apply_writes_events ws : forall w,
  events (apply_writes ws w) =
    (events w ++ map (fun pd => EvWrite pd.1 pd.2) ws)%list.
Proof.
  induction ws as [|pd ws IH]; intros w; simpl.
  - now rewrite app_nil_r.
  - rewrite IH. simpl. now rewrite <- app_assoc.
Qed.

Lemma apply_writes_untouched ws : forall w p,
  (forall pd, pd ∈ ws -> pd.1 <> p) ->
  files (apply_writes ws w) !! p = files w !! p.
Proof.
  induction ws as [|pd ws IH]; intros w p Hp; [reflexivity|].
  simpl. rewrite IH.
  - simpl. apply lookup_insert_ne. apply Hp. left.
  - intros pd' Hin. apply Hp. now right.
Qed.

Lemma numbered_writes_content storage_path todo : forall count w i img,
  todo !! i = Some img ->
  files (apply_writes (numbered_writes storage_path count todo) w)
    !! image_path storage_path (count + i) img = Some (data img).
Proof.
  induction todo as [|x rest IH]; intros count w i img Hi; [discriminate|].
  destruct i as [|i]; simpl in *.
  - injection Hi as ->. rewrite Nat.add_0_r, apply_writes_untouched.
    + simpl. apply lookup_insert_eq.
    + intros pd Hin Heq.
      apply list_elem_of_lookup in Hin as [j Hj].
      rewrite numbered_writes_lookup in Hj.
      destruct (rest !! j) as [y|]; [|discriminate].
      injection Hj as <-. simpl in Heq.
      apply image_path_inj in Heq. lia.
  - rewrite Nat.add_succ_r. now apply (IH (S count)).
Qed.

Lemma extract_image_loop_all_written storage_path todo : forall count images w,
  (forall i img, todo !! i = Some img ->
     denied w !! image_path storage_path (count + i) img = None) ->
  extract_image_loop storage_path todo count images w =
    (Return (images ++ (numbered_writes storage_path count todo).*1)%list,
     apply_writes (numbered_writes storage_path count todo) w).
Proof.
  induction todo as [|x rest IH]; intros count images w Hfree; simpl.
  - now rewrite app_nil_r.
  - pose proof (Hfree 0%nat x eq_refl) as H0. rewrite Nat.add_0_r in H0.
    unfold bind at 1. unfold try_except, bind, write_file. rewrite H0. simpl.
    rewrite IH.
    + now rewrite <- app_assoc.
    + intros i img Hi. simpl. rewrite <- Nat.add_succ_r. now apply Hfree.
Qed.

Lemma extract_image_loop_refused storage_path todo : forall k count images w img e,
  todo !! k = Some img ->
  (forall i img', (i < k)%nat -> todo !! i = Some img' ->
     denied w !! image_path storage_path (count + i) img' = None) ->
  denied w !! image_path storage_path (count + k) img = Some e ->
  is_Exception e = true ->
  extract_image_loop storage_path todo count images w =
    (Raise (Exn ImageExtractionError ("Error extracting image: " ++ exn_str e) (Some e)),
     apply_writes (numbered_writes storage_path count (take k todo)) w).
Proof.
  induction todo as [|x rest IH]; intros k count images w img e Hk Hfree Hden He;
    [discriminate|].
  destruct k as [|k]; simpl in *.
  - injection Hk as ->. rewrite Nat.add_0_r in Hden.
    unfold bind at 1. unfold try_except, bind, write_file. now rewrite Hden, He.
  - pose proof (Hfree 0%nat x ltac:(lia) eq_refl) as H0. rewrite Nat.add_0_r in H0.
    unfold bind at 1. unfold try_except, bind, write_file. rewrite H0. simpl.
    apply (IH k (S count) _ _ img e Hk).
    + intros i img' Hlt Hi. simpl. rewrite <- Nat.add_succ_r.
      apply Hfree; [lia | exact Hi].
    + simpl. now rewrite <- Nat.add_succ_r.
    + exact He.
Qed.

Lemma extract_image_all_written page storage_path imgs w :
  page_images page = inr imgs ->
  (forall i img, imgs !! i = Some img ->
     denied w !! image_path storage_path i img = None) ->
  extract_image page storage_path w =
    (Return (imap (image_path storage_path) imgs),
     apply_writes (numbered_writes storage_path 0 imgs) w).
Proof.
  intros Himgs Hfree. unfold extract_image, bind, get_images. rewrite Himgs. simpl.
  rewrite extract_image_loop_all_written by exact Hfree.
  simpl. now rewrite numbered_writes_paths.
Qed.

Lemma extract_image_refused page storage_path imgs w k img e :
  page_images page = inr imgs ->
  imgs !! k = Some img ->
  (forall i img', (i < k)%nat -> imgs !! i = Some img' ->
     denied w !! image_path storage_path i img' = None) ->
  denied w !! image_path storage_path k img = Some e ->
  is_Exception e = true ->
  extract_image page storage_path w =
    (Raise (Exn ImageExtractionError ("Error extracting image: " ++ exn_str e) (Some e)),
     apply_writes (numbered_writes storage_path 0 (take k imgs)) w).
Proof.
  intros Himgs Hk Hfree Hden He. unfold extract_image, bind, get_images.
  rewrite Himgs. simpl.
  now apply (extract_image_loop_refused storage_path imgs k 0 [] w img e).
Qed.

Lemma extract_text_Return page text w :
  page_text page = inr text -> extract_text page w = (Return text, w).
Proof. intros H. unfold extract_text. now rewrite H. Qed.

(** ** The Image Extractor *)

(** C7: when no write is refused, [extract_image] writes image [i] of
    the page to [storage_path / "{i}_{name}"], [i] counting from 0 in
    document order, and returns exactly those paths in that order; each
    file then holds its image's bytes and no other file changed. *)
Theorem extract_image_writes_numbered_files
    (page : PageObject) (storage_path : Path) (imgs : list ImageFile) (w : World) :
  page_images page = inr imgs ->
  (forall i img, imgs !! i = Some img ->
     denied w !! image_path storage_path i img = None) ->
  exists w',
    extract_image page storage_path w =
      (Return (imap (fun i img =>
                       path_div storage_path (format_nat i ++ "_" ++ name img)) imgs),
       w')
    /\ events w' =
         (events w ++
            imap (fun i img => EvWrite (image_path storage_path i img) (data img)) imgs)%list
    /\ (forall i img, imgs !! i = Some img ->
          files w' !! image_path storage_path i img = Some (data img))
    /\ (forall p, (forall i img, imgs !! i = Some img ->
                     p <> image_path storage_path i img) ->
          files w' !! p = files w !! p).
Proof.
  intros Himgs Hfree.
  exists (apply_writes (numbered_writes storage_path 0 imgs) w).
  split; [|split; [|split]].
  - now apply extract_image_all_written.
  - rewrite apply_writes_events, numbered_writes_imap. f_equal.
    change (map ?f ?l) with (f <$> l). rewrite fmap_imap.
    apply imap_ext. now intros i x _.
  - intros i img Hi. now apply (numbered_writes_content storage_path imgs 0 w i img).
  - intros p Hp. apply apply_writes_untouched. intros pd Hin Heq.
    apply list_elem_of_lookup in Hin as [j Hj].
    rewrite numbered_writes_lookup in Hj.
    destruct (imgs !! j) as [y|] eqn:Hy; [|discriminate].
    injection Hj as <-. simpl in Heq. now apply (Hp j y).
Qed.

Lemma extract_image_writes_numbered_files_witness :
  page_images example_page = inr two_images
  /\ exists w',
       extract_image example_page "images" example_world =
         (Return ["images/0_img1.png"; "images/1_img2.png"], w')
       /\ events w' =
            [EvWrite "images/0_img1.png" [x89; x50];
             EvWrite "images/1_img2.png" [x89; x51]].
Proof.
  split; [reflexivity|].
  destruct (extract_image_writes_numbered_files example_page "images" two_images
              example_world eq_refl (fun i img _ => lookup_empty _))
    as (w' & Hrun & Hev & _).
  exists w'. split; [exact Hrun | exact Hev].
Defined.

(** C8: when the write of image [k] is the first one refused,
    [extract_image] raises [ImageExtractionError] carrying the cause,
    having written images [0 .. k-1] and nothing after them; those
    files are still there with their bytes. *)
Theorem extract_image_write_failure_keeps_earlier_files
    (page : PageObject) (storage_path : Path) (imgs : list ImageFile) (w : World)
    (k : nat) (img : ImageFile) (e : exn) :
  page_images page = inr imgs ->
  imgs !! k = Some img ->
  (forall i img', (i < k)%nat -> imgs !! i = Some img' ->
     denied w !! image_path storage_path i img' = None) ->
  denied w !! image_path storage_path k img = Some e ->
  is_Exception e = true ->
  exists w',
    extract_image page storage_path w =
      (Raise (Exn ImageExtractionError ("Error extracting image: " ++ exn_str e) (Some e)),
       w')
    /\ events w' =
         (events w ++
            imap (fun i img' => EvWrite (image_path storage_path i img') (data img'))
              (take k imgs))%list
    /\ (forall i img', (i < k)%nat -> imgs !! i = Some img' ->
          files w' !! image_path storage_path i img' = Some (data img'))
    /\ (forall p, (forall i img', (i < k)%nat -> imgs !! i = Some img' ->
                     p <> image_path storage_path i img') ->
          files w' !! p = files w !! p).
Proof.
  intros Himgs Hk Hfree Hden He.
  exists (apply_writes (numbered_writes storage_path 0 (take k imgs)) w).
  split; [|split; [|split]].
  - now apply (extract_image_refused page storage_path imgs w k img e).
  - rewrite apply_writes_events, numbered_writes_imap. f_equal.
    change (map ?f ?l) with (f <$> l). rewrite fmap_imap.
    apply imap_ext. now intros i x _.
  - intros i img' Hlt Hi.
    apply (numbered_writes_content storage_path (take k imgs) 0 w i img').
    now rewrite lookup_take_lt.
  - intros p Hp. apply apply_writes_untouched. intros pd Hin Heq.
    apply list_elem_of_lookup in Hin as [j Hj].
    rewrite numbered_writes_lookup in Hj.
    destruct (take k imgs !! j) as [y|] eqn:Hy; [|discriminate].
    injection Hj as <-. simpl in Heq.
    apply lookup_take_Some in Hy as [Hy Hlt]. now apply (Hp j y).
Qed.

Lemma extract_image_write_failure_keeps_earlier_files_witness :
  denied readonly_world !! "images/1_img2.png" =
    Some (new_exn PermissionError "[Errno 13] Permission denied: 'images/1_img2.png'")
  /\ exists w',
       extract_image example_page "images" readonly_world =
         (Raise (Exn ImageExtractionError
                   "Error extracting image: [Errno 13] Permission denied: 'images/1_img2.png'"
                   (Some (new_exn PermissionError
                            "[Errno 13] Permission denied: 'images/1_img2.png'"))),
          w')
       /\ events w' = [EvWrite "images/0_img1.png" [x89; x50]]
       /\ files w' !! "images/0_img1.png" = Some [x89; x50]
       /\ files w' !! "images/1_img2.png" = None.
Proof.
  split; [vm_compute; reflexivity|].
  destruct (extract_image_write_failure_keeps_earlier_files example_page "images"
              two_images readonly_world 1
              {| name := "img2.png"; data := [x89; x51] |}
              (new_exn PermissionError "[Errno 13] Permission denied: 'images/1_img2.png'"))
    as (w' & Hrun & Hev & Hkept & Hrest).
  - reflexivity.
  - reflexivity.
  - intros [|i] img' Hlt Hi; [|lia]. injection Hi as <-. vm_compute. reflexivity.
  - vm_compute. reflexivity.
  - reflexivity.
  - exists w'. split; [exact Hrun|]. split; [exact Hev|]. split.
    + apply (Hkept 0%nat {| name := "img1.png"; data := [x89; x50] |}); [lia | reflexivity].
    + rewrite Hrest; [vm_compute; reflexivity|].
      intros [|i] img' Hlt Hi; [|lia]. injection Hi as <-. vm_compute. discriminate.
Defined.

(** ** The Page Extractor: the try block *)

Lemma pages_getitem_in_range ps index page w :
  0 <= index -> ps !! Z.to_nat index = Some page ->
  pages_getitem ps index w = (Return page, w).
Proof.
  intros H0 Hp. unfold pages_getitem.
  pose proof (lookup_lt_Some _ _ _ Hp) as Hlt.
  destruct (index <? 0) eqn:Hneg; [apply Z.ltb_lt in Hneg; lia|].
  rewrite Hneg. simpl.
  destruct (Z.of_nat (length ps) <=? index) eqn:Hge; [apply Z.leb_le in Hge; lia|].
  now rewrite Hp.
Qed.

Lemma pages_getitem_beyond ps index w :
  Z.of_nat (length ps) <= index ->
  pages_getitem ps index w =
    (Raise (new_exn IndexError "sequence index out of range"), w).
Proof.
  intros Hge. unfold pages_getitem.
  destruct (index <? 0) eqn:Hneg; [apply Z.ltb_lt in Hneg; lia|].
  rewrite Hneg. simpl.
  destruct (Z.of_nat (length ps) <=? index) eqn:Hle; [reflexivity|].
  apply Z.leb_gt in Hle. lia.
Qed.

Section PageExtractor.

Variable pdf_decode : list byte -> exn + PdfReader.

(** With an open reader whose metadata is present and a page number
    of at least 1, the outcome of the call is decided by the page
    steps alone. *)
Lemma extract_data_from_page_reader r d n storage_path w :
  1 <= n -> metadata r = Some d ->
  extract_data_from_page pdf_decode (DReader r) n storage_path w =
    match page_steps r (n - 1) storage_path w with
    | (Return ti, w') =>
        (Return (Some (ti.1, ti.2,
                       <["page" := VInt n]> (metadata_record (length (pages r)) d))),
         w')
    | (Raise e, w') =>
        if is_Exception e
        then (Return None, log (EvPrint ("Error extracting text: " ++ exn_str e)) w')
        else (Raise e, w')
    end.
Proof.
  intros Hn Hm. unfold extract_data_from_page.
  destruct (n - 1 <? 0) eqn:Hlt; [apply Z.ltb_lt in Hlt; lia|].
  unfold bind at 1. unfold ret at 1. simpl of_handle.
  unfold bind at 1. rewrite (get_document_meta_data_reader pdf_decode r d w Hm).
  unfold bind at 1. unfold setitem, ret at 1.
  replace (n - 1 + 1) with n by lia.
  unfold try_except, page_steps, bind, getattr_pages, ret.
  destruct (pages_getitem (pages r) (n - 1) w) as [[page|e] w1]; [|reflexivity].
  destruct (extract_text page w1) as [[text|e] w2]; [|reflexivity].
  destruct (extract_image page storage_path w2) as [[images|e] w3]; reflexivity.
Qed.

End PageExtractor.



(** X19: for an open reader whose information dictionary is present
    (so that the try block is entered) and a page number of at least 1:
    any [Exception] raised by the page steps is printed as a diagnostic
    and turned into [None]; a page number beyond the page count and a
    refused image write are two such errors; and no exception deriving
    from [Exception] leaves the call. *)
Theorem extract_data_from_page_catches_page_errors
    (pdf_decode : list byte -> exn + PdfReader) (r : PdfReader)
    (d : DocumentInformation) (n : Z) (storage_path : Path) (w : World) :
  1 <= n ->
  metadata r = Some d ->
  (forall e w',
      page_steps r (n - 1) storage_path w = (Raise e, w') ->
      is_Exception e = true ->
      extract_data_from_page pdf_decode (DReader r) n storage_path w =
        (Return None, log (EvPrint ("Error extracting text: " ++ exn_str e)) w'))
  /\ (Z.of_nat (length (pages r)) < n ->
      extract_data_from_page pdf_decode (DReader r) n storage_path w =
        (Return None,
         log (EvPrint "Error extracting text: sequence index out of range") w))
  /\ (forall page text imgs k img cause,
        pages r !! Z.to_nat (n - 1) = Some page ->
        page_text page = inr text ->
        page_images page = inr imgs ->
        imgs !! k = Some img ->
        (forall i img', (i < k)%nat -> imgs !! i = Some img' ->
           denied w !! image_path storage_path i img' = None) ->
        denied w !! image_path storage_path k img = Some cause ->
        is_Exception cause = true ->
        extract_data_from_page pdf_decode (DReader r) n storage_path w =
          (Return None,
           log (EvPrint ("Error extracting text: Error extracting image: "
                           ++ exn_str cause))
             (apply_writes (numbered_writes storage_path 0 (take k imgs)) w)))
  /\ (forall e w',
        extract_data_from_page pdf_decode (DReader r) n storage_path w = (Raise e, w') ->
        is_Exception e = false).
Proof.
  intros Hn Hm.
  pose proof (extract_data_from_page_reader pdf_decode r d n storage_path w Hn Hm) as Hrun.
  split; [|split; [|split]].
  - intros e w' Hsteps He. rewrite Hrun, Hsteps. now rewrite He.
  - intros Hbeyond. rewrite Hrun. unfold page_steps.
    rewrite (bind_Raise _ _ _ _ _
               (pages_getitem_beyond (pages r) (n - 1) w ltac:(lia))).
    reflexivity.
  - intros page text imgs k img cause Hpage Htext Himgs Hk Hfree Hden He.
    rewrite Hrun. unfold page_steps.
    rewrite (bind_Return _ _ _ _ _
               (pages_getitem_in_range (pages r) (n - 1) page w ltac:(lia) Hpage)).
    rewrite (bind_Return _ _ _ _ _ (extract_text_Return page text w Htext)).
    rewrite (bind_Raise _ _ _ _ _
               (extract_image_refused page storage_path imgs w k img cause
                  Himgs Hk Hfree Hden He)).
    reflexivity.
  - intros e w' Hraise. rewrite Hrun in Hraise.
    destruct (page_steps r (n - 1) storage_path w) as [[ti|e0] w0]; [discriminate|].
    destruct (is_Exception e0) eqn:He0; [discriminate|].
    now injection Hraise as <- _.
Qed.

Lemma extract_data_from_page_catches_page_errors_witness :
  1 <= 1
  /\ metadata example_reader = Some example_info
  /\ extract_data_from_page example_decode (DReader example_reader) 1 "images"
       readonly_world =
       (Return None,
        log (EvPrint
               "Error extracting text: Error extracting image: [Errno 13] Permission denied: 'images/1_img2.png'")
          (store "images/0_img1.png" [x89; x50] readonly_world))
  /\ extract_data_from_page example_decode (DReader example_reader) 11 "images"
       example_world =
       (Return None,
        log (EvPrint "Error extracting text: sequence index out of range") example_world).
Proof.
  split; [lia|]. split; [reflexivity|]. split.
  - apply (proj1 (extract_data_from_page_catches_page_errors example_decode example_reader
                    example_info 1 "images" readonly_world ltac:(lia) eq_refl)
             (Exn ImageExtractionError
                "Error extracting image: [Errno 13] Permission denied: 'images/1_img2.png'"
                (Some (new_exn PermissionError
                         "[Errno 13] Permission denied: 'images/1_img2.png'")))
             (store "images/0_img1.png" [x89; x50] readonly_world));
      vm_compute; reflexivity.
  - apply (proj1 (proj2 (extract_data_from_page_catches_page_errors example_decode
                           example_reader example_info 11 "images" example_world
                           ltac:(lia) eq_refl))).
    vm_compute. reflexivity.
Defined.

(** ** The Page Extractor: the page number in the result *)

(** C9, as stated, fails on a one-page document whose text cannot be
    extracted: page 1 is valid, yet the call returns [None], which has
    no metadata record. *)
Lemma extract_data_from_page_garbled_text_gives_None :
  1 <= 1 <= Z.of_nat (length (pages garbled_reader))
  /\ extract_data_from_page example_decode (DReader garbled_reader) 1 "images"
       example_world =
       (Return None,
        log (EvPrint "Error extracting text: Unexpected end of stream") example_world)
  /\ ~ (exists text images md,
          fst (extract_data_from_page example_decode (DReader garbled_reader) 1
                 "images" example_world) = Return (Some (text, images, md))
          /\ md !! "page" = Some (VInt 1)).
Proof.
  split; [simpl; lia|]. split; [vm_compute; reflexivity|].
  intros (text & images & md & Hrun & _). vm_compute in Hrun. discriminate Hrun.
Qed.

(** C9, amended: for an open document whose metadata is present and a
    valid page number [k]: when the text of page [k] is extracted, its
    images are enumerated and none of its image writes is refused, the
    call returns the text, the saved paths and a metadata record with
    [page = k] whose other entries are those of the document-level
    record; and every result the call returns for page [k] carries
    such a record. *)
Theorem extract_data_from_page_sets_page
    (pdf_decode : list byte -> exn + PdfReader) (r : PdfReader)
    (d : DocumentInformation) (k : Z) (storage_path : Path) (w : World) :
  metadata r = Some d ->
  1 <= k <= Z.of_nat (length (pages r)) ->
  exists doc_md,
    get_document_meta_data pdf_decode (DReader r) w = (Return (Some doc_md), w)
    /\ (forall page text imgs,
          pages r !! Z.to_nat (k - 1) = Some page ->
          page_text page = inr text ->
          page_images page = inr imgs ->
          (forall i img, imgs !! i = Some img ->
             denied w !! image_path storage_path i img = None) ->
          exists md w',
            extract_data_from_page pdf_decode (DReader r) k storage_path w =
              (Return (Some (text, imap (image_path storage_path) imgs, md)), w')
            /\ md !! "page" = Some (VInt k)
            /\ (forall key, key <> "page" -> md !! key = doc_md !! key))
    /\ (forall text images md w',
          extract_data_from_page pdf_decode (DReader r) k storage_path w =
            (Return (Some (text, images, md)), w') ->
          md !! "page" = Some (VInt k)
          /\ (forall key, key <> "page" -> md !! key = doc_md !! key)).
Proof.
  intros Hm Hk.
  exists (metadata_record (length (pages r)) d).
  split; [now apply get_document_meta_data_reader|].
  pose proof (extract_data_from_page_reader pdf_decode r d k storage_path w
                ltac:(lia) Hm) as Hrun.
  split.
  - intros page text imgs Hpage Htext Himgs Hfree.
    pose proof (extract_image_all_written page storage_path imgs w Himgs Hfree) as Hwrite.
    exists (<["page" := VInt k]> (metadata_record (length (pages r)) d)),
           (apply_writes (numbered_writes storage_path 0 imgs) w).
    split; [|split].
    + rewrite Hrun. unfold page_steps.
      rewrite (bind_Return _ _ _ _ _
                 (pages_getitem_in_range (pages r) (k - 1) page w ltac:(lia) Hpage)).
      rewrite (bind_Return _ _ _ _ _ (extract_text_Return page text w Htext)).
      rewrite (bind_Return _ _ _ _ _ Hwrite). reflexivity.
    + apply lookup_insert_eq.
    + intros key Hkey. now apply lookup_insert_ne.
  - intros text images md w' Hres. rewrite Hrun in Hres.
    destruct (page_steps r (k - 1) storage_path w) as [[ti|e] w1].
    + injection Hres as _ _ <- _. split; [apply lookup_insert_eq|].
      intros key Hkey. now apply lookup_insert_ne.
    + destruct (is_Exception e); discriminate Hres.
Qed.

Lemma extract_data_from_page_sets_page_witness :
  metadata example_reader = Some example_info
  /\ 1 <= 2 <= Z.of_nat (length (pages example_reader))
  /\ exists doc_md md w',
       get_document_meta_data example_decode (DReader example_reader) example_world =
         (Return (Some doc_md), example_world)
       /\ extract_data_from_page example_decode (DReader example_reader) 2 "images"
            example_world =
            (Return (Some ("Extracted text",
                           ["images/0_img1.png"; "images/1_img2.png"], md)), w')
       /\ md !! "page" = Some (VInt 2)
       /\ (forall key, key <> "page" -> md !! key = doc_md !! key).
Proof.
  split; [reflexivity|]. split; [simpl; lia|].
  destruct (extract_data_from_page_sets_page example_decode example_reader example_info 2
              "images" example_world eq_refl ltac:(simpl; lia))
    as (doc_md & Hdoc & Hgood & _).
  destruct (Hgood example_page "Extracted text" two_images eq_refl eq_refl eq_refl
              (fun i img _ => lookup_empty _))
    as (md & w' & Hrun & Hpage & Hrest).
  exists doc_md, md, w'. split; [exact Hdoc|]. split; [exact Hrun|].
  split; [exact Hpage | exact Hrest].
Defined.

(** ** Frame rules *)

Lemma evolves_refl P w : evolves P w w.
Proof.
  repeat split; auto. exists []. now rewrite app_nil_r.
Qed.

Lemma evolves_trans P w1 w2 w3 :
  evolves P w1 w2 -> evolves P w2 w3 -> evolves P w1 w3.
Proof.
  intros (Hd1 & [e1 He1] & Hk1 & Hf1) (Hd2 & [e2 He2] & Hk2 & Hf2).
  repeat split.
  - congruence.
  - exists (e1 ++ e2)%list. now rewrite He2, He1, app_assoc.
  - auto.
  - intros p Hp. rewrite Hf2, Hf1; auto.
Qed.

Lemma evolves_log P ev w : evolves P w (log ev w).
Proof. repeat split; auto. now exists [ev]. Qed.

Lemma evolves_store (P : string -> Prop) p bytes w :
  P p -> evolves P w (store p bytes w).
Proof.
  intros HP. repeat split; simpl.
  - now exists [EvWrite p bytes].
  - intros q Hq. destruct (decide (p = q)) as [->|Hne].
    + rewrite lookup_insert_eq. eauto.
    + now rewrite lookup_insert_ne.
  - intros q Hq. apply lookup_insert_ne. intros ->. now apply Hq.
Qed.

Lemma writes_only_ret {A} P (a : A) : writes_only P (ret a).
Proof. intros w. apply evolves_refl. Qed.

Lemma writes_only_raise {A} P e : writes_only P (@raise A e).
Proof. intros w. apply evolves_refl. Qed.

Lemma writes_only_bind {A B} P (m : M A) (k : A -> M B) :
  writes_only P m -> (forall a, writes_only P (k a)) -> writes_only P (bind m k).
Proof.
  intros Hm Hk w. unfold bind. specialize (Hm w).
  destruct (m w) as [[a|e] w1]; simpl in Hm; [|exact Hm].
  eapply evolves_trans; [exact Hm | apply Hk].
Qed.

Lemma writes_only_try_except {A} P (body : M A) h :
  writes_only P body -> (forall e, writes_only P (h e)) ->
  writes_only P (try_except body h).
Proof.
  intros Hb Hh w. unfold try_except. specialize (Hb w).
  destruct (body w) as [[a|e] w1]; simpl in Hb; [exact Hb|].
  destruct (is_Exception e); [|exact Hb].
  eapply evolves_trans; [exact Hb | apply Hh].
Qed.

Lemma writes_only_print P line : writes_only P (print line).
Proof. intros w. apply evolves_log. Qed.

Lemma writes_only_write_file (P : string -> Prop) p bytes :
  P p -> writes_only P (write_file p bytes).
Proof.
  intros HP w. unfold write_file.
  destruct (denied w !! p); [apply evolves_refl | now apply evolves_store].
Qed.

Lemma writes_only_get_document P a : writes_only P (get_document a).
Proof.
  unfold get_document. apply writes_only_bind.
  - intros w. apply evolves_refl.
  - intros found. destruct (negb found);
      [apply writes_only_raise | apply writes_only_ret].
Qed.

Lemma writes_only_extract_image_loop storage_path todo : forall count images,
  writes_only (image_target storage_path)
    (extract_image_loop storage_path todo count images).
Proof.
  induction todo as [|x rest IH]; intros count images; simpl.
  - apply writes_only_ret.
  - apply writes_only_bind; [|intros st; apply IH].
    apply writes_only_try_except.
    + apply writes_only_bind; [|intros _; apply writes_only_ret].
      apply writes_only_write_file. now exists count, x.
    + intros e. apply writes_only_raise.
Qed.

Lemma writes_only_extract_image page storage_path :
  writes_only (image_target storage_path) (extract_image page storage_path).
Proof.
  unfold extract_image. apply writes_only_bind.
  - unfold get_images. destruct (page_images page);
      [apply writes_only_raise | apply writes_only_ret].
  - intros todo. apply writes_only_extract_image_loop.
Qed.

Section Frames.

Variable pdf_decode : list byte -> exn + PdfReader.

Lemma writes_only_read_document P p :
  writes_only P (read_document pdf_decode p).
Proof.
  unfold read_document. apply writes_only_bind; [apply writes_only_get_document|].
  intros q. apply writes_only_try_except.
  - apply writes_only_bind; [|intros r; apply writes_only_ret].
    intros w. unfold PdfReader_open.
    destruct (files w !! q) as [bytes|]; [destruct (pdf_decode bytes)|];
      apply evolves_log.
  - intros e. apply writes_only_bind; [apply writes_only_print|].
    intros _. apply writes_only_ret.
Qed.

Lemma writes_only_getattr P data attr field :
  writes_only P (getattr data attr field).
Proof.
  unfold getattr. destruct data; [apply writes_only_ret | apply writes_only_raise].
Qed.

Lemma writes_only_get_document_meta_data P doc :
  writes_only P (get_document_meta_data pdf_decode doc).
Proof.
  unfold get_document_meta_data. apply writes_only_bind.
  - destruct doc; try apply writes_only_ret.
    apply writes_only_bind; [apply writes_only_get_document|].
    intros q. apply writes_only_read_document.
  - intros [r|]; [|apply writes_only_ret].
    repeat (apply writes_only_bind; [apply writes_only_getattr | intros ?]).
    apply writes_only_ret.
Qed.

Lemma writes_only_extract_data_from_page reader n storage_path :
  writes_only (image_target storage_path)
    (extract_data_from_page pdf_decode reader n storage_path).
Proof.
  unfold extract_data_from_page.
  destruct (n - 1 <? 0); [apply writes_only_raise|].
  assert (Hrest : forall m : M (option PdfReader),
             writes_only (image_target storage_path) m ->
             writes_only (image_target storage_path)
               (reader0 <- m ;;
                meta_data <- get_document_meta_data pdf_decode (of_handle reader0) ;;
                meta_data0 <- setitem meta_data "page" (VInt (n - 1 + 1)) ;;
                try_except
                  (ps <- getattr_pages reader0 ;;
                   page <- pages_getitem ps (n - 1) ;;
                   text <- extract_text page ;;
                   images <- extract_image page storage_path ;;
                   ret (Some (text, images, meta_data0)))
                  (fun e =>
                     print ("Error extracting text: " ++ exn_str e) ;;;
                     ret None))).
  { intros m Hm. apply writes_only_bind; [exact Hm|]. intros r0.
    apply writes_only_bind; [apply writes_only_get_document_meta_data|]. intros md.
    apply writes_only_bind.
    { unfold setitem. destruct md; [apply writes_only_ret | apply writes_only_raise]. }
    intros md0. apply writes_only_try_except.
    - apply writes_only_bind.
      { unfold getattr_pages. destruct r0; [apply writes_only_ret | apply writes_only_raise]. }
      intros ps. apply writes_only_bind.
      { unfold pages_getitem.
        destruct ((if n - 1 <? 0 then _ else _) <? 0) ; simpl;
          [apply writes_only_raise|].
        destruct (_ <=? _); simpl; [apply writes_only_raise|].
        destruct (ps !! _); [apply writes_only_ret | apply writes_only_raise]. }
      intros page. apply writes_only_bind.
      { unfold extract_text. destruct (page_text page);
          [apply writes_only_raise | apply writes_only_ret]. }
      intros text. apply writes_only_bind; [apply writes_only_extract_image|].
      intros images. apply writes_only_ret.
    - intros e. apply writes_only_bind; [apply writes_only_print|].
      intros _. apply writes_only_ret. }
  destruct reader as [|p|r]; [apply writes_only_ret | |].
  - apply Hrest, writes_only_read_document.
  - apply Hrest, writes_only_ret.
Qed.

End Frames.

(** ** The Document Locator and the Document Reader, in full *)

(** Normal forms of [Path]. *)

Lemma split_slash_no_slash x : no_slash x = true -> split_slash x = [x].
Proof.
  induction x as [|c x IH]; simpl; [reflexivity|].
  intros H. apply andb_prop in H as [Hc Hx].
  apply negb_true_iff in Hc. rewrite Hc, (IH Hx). reflexivity.
Qed.

Lemma split_slash_app x t :
  no_slash x = true ->
  split_slash (x ++ String "/" t) = x :: split_slash t.
Proof.
  induction x as [|c x IH]; simpl; intros H; [reflexivity|].
  apply andb_prop in H as [Hc Hx].
  apply negb_true_iff in Hc. rewrite Hc, (IH Hx). reflexivity.
Qed.

Lemma split_slash_parts s : Forall (fun x => no_slash x = true) (split_slash s).
Proof.
  induction s as [|c s IH]; simpl.
  - repeat constructor.
  - destruct (Ascii.eqb c "/") eqn:Hc.
    + constructor; [reflexivity | exact IH].
    + destruct (split_slash s) as [|x xs]; [repeat constructor; simpl; now rewrite Hc|].
      inversion IH as [|? ? Hx Hxs]; subst.
      constructor; [simpl; now rewrite Hc, Hx | exact Hxs].
Qed.

Lemma split_join parts :
  parts <> [] -> Forall (fun x => no_slash x = true) parts ->
  split_slash (join_slash parts) = parts.
Proof.
  induction parts as [|x rest IH]; intros Hne Hall; [congruence|].
  inversion Hall as [|? ? Hx Hrest]; subst.
  destruct rest as [|y rest'].
  - simpl. now apply split_slash_no_slash.
  - change (join_slash (x :: y :: rest')) with (x ++ String "/" (join_slash (y :: rest'))).
    rewrite split_slash_app by exact Hx. f_equal. apply IH; [discriminate | exact Hrest].
Qed.

Lemma join_starts parts x :
  no_slash x = true -> x <> "" ->
  starts_with_slash (join_slash (x :: parts)) = false.
Proof.
  intros Hx Hne. destruct x as [|c x]; [congruence|].
  simpl in Hx. apply andb_prop in Hx as [Hc _]. apply negb_true_iff in Hc.
  destruct parts; simpl; exact Hc.
Qed.

Lemma path_root_cases s : path_root s = "" \/ path_root s = "/" \/ path_root s = "//".
Proof.
  unfold path_root.
  destruct (starts_with_slash s); [|now left].
  destruct (starts_with_slash (behead s)); [|now right; left].
  destruct (starts_with_slash (behead (behead s))); [now right; left | now right; right].
Qed.

Lemma path_root_relative j : starts_with_slash j = false -> path_root j = "".
Proof. intros H. unfold path_root. now rewrite H. Qed.

Lemma path_root_single j :
  starts_with_slash j = false -> path_root (String "/" j) = "/".
Proof. intros H. unfold path_root. simpl. now rewrite H. Qed.

Lemma path_root_double j :
  starts_with_slash j = false -> path_root (String "/" (String "/" j)) = "//".
Proof. intros H. unfold path_root. simpl. now rewrite H. Qed.

Lemma filter_kept_all (parts : list string) :
  Forall (fun x => kept x = true) parts ->
  filter (fun x => kept x = true) parts = parts.
Proof.
  induction 1 as [|x l Hx Hl IH]; [reflexivity|].
  rewrite filter_cons_True by exact Hx. now rewrite IH.
Qed.

Lemma Path_of_str_idempotent s : Path_of_str (Path_of_str s) = Path_of_str s.
Proof.
  pose proof (split_slash_parts s) as Hparts.
  assert (Hclean : Forall (fun x => no_slash x = true)
                     (filter (fun x => kept x = true) (split_slash s)))
    by (apply Forall_forall; intros x Hin; apply list_elem_of_filter in Hin as [_ Hin];
        rewrite Forall_forall in Hparts; auto).
  assert (Hkept : Forall (fun x => kept x = true)
                    (filter (fun x => kept x = true) (split_slash s)))
    by (apply Forall_forall; intros x Hin; now apply list_elem_of_filter in Hin as [Hk _]).
  assert (Hdef : Path_of_str s =
                 match filter (fun x => kept x = true) (split_slash s) with
                 | [] => if String.eqb (path_root s) "" then "." else path_root s
                 | _ :: _ =>
                     path_root s
                       ++ join_slash (filter (fun x => kept x = true) (split_slash s))
                 end) by reflexivity.
  rewrite Hdef. clear Hdef.
  destruct (filter (fun x => kept x = true) (split_slash s)) as [|x rest].
  - destruct (path_root_cases s) as [-> | [-> | ->]]; reflexivity.
  - inversion Hclean as [|? ? Hx _]; subst. inversion Hkept as [|? ? Hkx _]; subst.
    assert (Hne : x <> "") by (intros ->; discriminate Hkx).
    pose proof (join_starts rest x Hx Hne) as Hstart.
    assert (Hsplit : split_slash (join_slash (x :: rest)) = x :: rest)
      by (apply split_join; [discriminate | exact Hclean]).
    destruct (path_root_cases s) as [-> | [-> | ->]]; unfold Path_of_str.
    + change ("" ++ join_slash (x :: rest)) with (join_slash (x :: rest)).
      rewrite (path_root_relative _ Hstart), Hsplit, (filter_kept_all _ Hkept). reflexivity.
    + change ("/" ++ join_slash (x :: rest)) with (String "/" (join_slash (x :: rest))).
      rewrite (path_root_single _ Hstart).
      change (split_slash (String "/" (join_slash (x :: rest))))
        with ("" :: split_slash (join_slash (x :: rest))).
      rewrite Hsplit.
      rewrite filter_cons_False by (simpl; discriminate).
      rewrite (filter_kept_all _ Hkept). reflexivity.
    + change ("//" ++ join_slash (x :: rest))
        with (String "/" (String "/" (join_slash (x :: rest)))).
      rewrite (path_root_double _ Hstart).
      change (split_slash (String "/" (String "/" (join_slash (x :: rest)))))
        with ("" :: "" :: split_slash (join_slash (x :: rest))).
      rewrite Hsplit.
      rewrite !filter_cons_False by (simpl; discriminate).
      rewrite (filter_kept_all _ Hkept). reflexivity.
Qed.

(** X1: [get_document] leaves the world as it was.  It checks the path
    it was given, a [str] being first normalised by [Path] (so
    ["./missing.pdf"] is checked and reported as ["missing.pdf"]): it
    returns that path when a file exists there and raises
    [FileNotFoundError] naming it when none does.  The path checked for
    a [str] is in normal form: passing its text again gives the same
    outcome. *)
Theorem get_document_locates (a : path_like) (w : World) :
  snd (get_document a w) = w
  /\ (is_Some (files w !! path_text a) ->
      get_document a w = (Return (path_text a), w))
  /\ (files w !! path_text a = None ->
      get_document a w =
        (Raise (new_exn FileNotFoundError ("File " ++ path_text a ++ " not found")), w))
  /\ (forall s, a = AsStr s ->
        Path_of_str (path_text a) = path_text a
        /\ get_document (AsStr (path_text a)) w = get_document a w).
Proof.
  assert (Hsame : get_document a w = get_document (AsPath (path_text a)) w)
    by (destruct a; reflexivity).
  split; [|split; [|split]].
  - rewrite Hsame. destruct (files w !! path_text a) as [bytes|] eqn:Hf.
    + now rewrite (get_document_found (path_text a) w) by (rewrite Hf; eauto).
    + now rewrite (get_document_missing (path_text a) w Hf).
  - intros Hf. rewrite Hsame. now apply get_document_found.
  - intros Hf. rewrite Hsame. now apply get_document_missing.
  - intros s ->. simpl path_text. split; [apply Path_of_str_idempotent|].
    unfold get_document. now rewrite Path_of_str_idempotent.
Qed.

Lemma get_document_locates_witness :
  path_text (AsStr "./missing.pdf") = "missing.pdf"
  /\ files example_world !! "missing.pdf" = None
  /\ get_document (AsStr "./missing.pdf") example_world =
       (Raise (new_exn FileNotFoundError "File missing.pdf not found"), example_world)
  /\ path_text (AsStr ".//report.pdf") = "report.pdf"
  /\ get_document (AsStr ".//report.pdf") example_world =
       (Return "report.pdf", example_world).
Proof.
  split; [reflexivity|]. split; [vm_compute; reflexivity|]. split.
  - apply (proj1 (proj2 (proj2 (get_document_locates (AsStr "./missing.pdf")
                                  example_world)))).
    vm_compute. reflexivity.
  - split; [reflexivity|].
    apply (proj1 (proj2 (get_document_locates (AsStr ".//report.pdf") example_world))).
    vm_compute. eauto.
Defined.

(** X2: [read_document] returns a handle exactly when the file exists
    and decodes, and the handle is the decoder's. *)
Theorem read_document_handle_iff
    (pdf_decode : list byte -> exn + PdfReader) (p : Path) (w : World) (r : PdfReader) :
  fst (read_document pdf_decode p w) = Return (Some r)
  <-> exists bytes, files w !! p = Some bytes /\ pdf_decode bytes = inr r.
Proof.
  split.
  - intros Hrun. destruct (files w !! p) as [bytes|] eqn:Hf.
    + exists bytes. split; [reflexivity|].
      destruct (pdf_decode bytes) as [e|r'] eqn:Hd.
      * unfold read_document in Hrun.
        rewrite (bind_Return _ _ _ _ _
                   (get_document_found p w (mk_is_Some _ _ Hf))) in Hrun.
        unfold try_except, bind, PdfReader_open in Hrun. rewrite Hf, Hd in Hrun.
        destruct (is_Exception e); discriminate Hrun.
      * rewrite (read_document_decoded pdf_decode p w bytes r' Hf Hd) in Hrun.
        simpl in Hrun. now injection Hrun as ->.
    + unfold read_document in Hrun.
      rewrite (bind_Raise _ _ _ _ _ (get_document_missing p w Hf)) in Hrun.
      discriminate Hrun.
  - intros (bytes & Hf & Hd).
    now rewrite (read_document_decoded pdf_decode p w bytes r Hf Hd).
Qed.

(** X3: [read_document] never returns [None] silently: when it does, the
    file exists, its decode raised an [Exception], and the last thing
    done was to print the diagnostic with that error's text. *)
Theorem read_document_None_has_diagnostic
    (pdf_decode : list byte -> exn + PdfReader) (p : Path) (w w' : World) :
  read_document pdf_decode p w = (Return None, w') ->
  exists bytes e,
    files w !! p = Some bytes
    /\ pdf_decode bytes = inl e
    /\ is_Exception e = true
    /\ w' = log (EvPrint ("Error reading document: " ++ exn_str e))
              (log (EvOpenPdf p) w).
Proof.
  intros Hrun. destruct (files w !! p) as [bytes|] eqn:Hf.
  - destruct (pdf_decode bytes) as [e|r] eqn:Hd.
    + exists bytes, e. split; [reflexivity|]. split; [exact Hd|].
      destruct (is_Exception e) eqn:He.
      * split; [reflexivity|].
        rewrite (read_document_undecodable pdf_decode p w bytes e Hf Hd He) in Hrun.
        now injection Hrun as <-.
      * unfold read_document in Hrun.
        rewrite (bind_Return _ _ _ _ _
                   (get_document_found p w (mk_is_Some _ _ Hf))) in Hrun.
        unfold try_except, bind, PdfReader_open in Hrun.
        rewrite Hf, Hd, He in Hrun. discriminate Hrun.
    + rewrite (read_document_decoded pdf_decode p w bytes r Hf Hd) in Hrun.
      discriminate Hrun.
  - unfold read_document in Hrun.
    rewrite (bind_Raise _ _ _ _ _ (get_document_missing p w Hf)) in Hrun.
    discriminate Hrun.
Qed.

Lemma read_document_None_has_diagnostic_witness :
  read_document example_decode "notes.txt" example_world =
    (Return None,
     log (EvPrint "Error reading document: EOF marker not found")
       (log (EvOpenPdf "notes.txt") example_world))
  /\ exists bytes e,
       files example_world !! "notes.txt" = Some bytes
       /\ example_decode bytes = inl e
       /\ is_Exception e = true
       /\ log (EvPrint "Error reading document: EOF marker not found")
            (log (EvOpenPdf "notes.txt") example_world) =
          log (EvPrint ("Error reading document: " ++ exn_str e))
            (log (EvOpenPdf "notes.txt") example_world).
Proof.
  assert (Hrun : read_document example_decode "notes.txt" example_world =
                   (Return None,
                    log (EvPrint "Error reading document: EOF marker not found")
                      (log (EvOpenPdf "notes.txt") example_world)))
    by (vm_compute; reflexivity).
  split; [exact Hrun|].
  exact (read_document_None_has_diagnostic example_decode "notes.txt" example_world _ Hrun).
Defined.

(** X4: an exception of the decoder that does not derive from
    [Exception] (a keyboard interrupt, an exit) is not swallowed by
    [read_document]: it is raised to the caller and nothing is
    printed. *)
Theorem read_document_passes_non_Exception
    (pdf_decode : list byte -> exn + PdfReader) (p : Path) (bytes : list byte)
    (e : exn) (w : World) :
  files w !! p = Some bytes ->
  pdf_decode bytes = inl e ->
  is_Exception e = false ->
  read_document pdf_decode p w = (Raise e, log (EvOpenPdf p) w).
Proof.
  intros Hf Hd He. unfold read_document.
  rewrite (bind_Return _ _ _ _ _ (get_document_found p w (mk_is_Some _ _ Hf))).
  unfold try_except, bind, PdfReader_open. now rewrite Hf, Hd, He.
Qed.

Lemma read_document_passes_non_Exception_witness :
  files example_world !! "report.pdf" = Some [x25; x50; x44; x46]
  /\ is_Exception (new_exn KeyboardInterrupt "") = false
  /\ read_document interrupted_decode "report.pdf" example_world =
       (Raise (new_exn KeyboardInterrupt ""),
        log (EvOpenPdf "report.pdf") example_world).
Proof.
  split; [vm_compute; reflexivity|]. split; [reflexivity|].
  apply (read_document_passes_non_Exception interrupted_decode "report.pdf"
           [x25; x50; x44; x46] (new_exn KeyboardInterrupt "") example_world);
    [vm_compute; reflexivity | reflexivity | reflexivity].
Defined.

(** ** The Metadata Extractor, in full *)

(** X5: given a path, [get_document_meta_data] raises
    [FileNotFoundError] when no file is there, with the world untouched,
    and returns [None] after the Reader's diagnostic when the file does
    not decode. *)
Theorem get_document_meta_data_path_failures
    (pdf_decode : list byte -> exn + PdfReader) (p : Path) (w : World) :
  (files w !! p = None ->
     get_document_meta_data pdf_decode (DPath p) w =
       (Raise (new_exn FileNotFoundError ("File " ++ p ++ " not found")), w))
  /\ (forall bytes e,
        files w !! p = Some bytes ->
        pdf_decode bytes = inl e ->
        is_Exception e = true ->
        get_document_meta_data pdf_decode (DPath p) w =
          (Return None,
           log (EvPrint ("Error reading document: " ++ exn_str e))
             (log (EvOpenPdf p) w))).
Proof.
  split.
  - intros Hf. unfold get_document_meta_data.
    apply bind_Raise, bind_Raise, get_document_missing, Hf.
  - intros bytes e Hf Hd He. unfold get_document_meta_data.
    rewrite (bind_Return _ _ w None
               (log (EvPrint ("Error reading document: " ++ exn_str e))
                  (log (EvOpenPdf p) w))); [reflexivity|].
    rewrite (bind_Return _ _ _ _ _ (get_document_found p w (mk_is_Some _ _ Hf))).
    now apply (read_document_undecodable pdf_decode p w bytes e).
Qed.

Lemma get_document_meta_data_path_failures_witness :
  (files example_world !! "missing.pdf" = None
   /\ get_document_meta_data example_decode (DPath "missing.pdf") example_world =
        (Raise (new_exn FileNotFoundError "File missing.pdf not found"),
         example_world))
  /\ (files example_world !! "notes.txt" = Some [x68; x69]
      /\ get_document_meta_data example_decode (DPath "notes.txt") example_world =
           (Return None,
            log (EvPrint "Error reading document: EOF marker not found")
              (log (EvOpenPdf "notes.txt") example_world))).
Proof.
  split.
  - split; [vm_compute; reflexivity|].
    apply (proj1 (get_document_meta_data_path_failures example_decode "missing.pdf"
                    example_world)).
    vm_compute; reflexivity.
  - split; [vm_compute; reflexivity|].
    apply (proj2 (get_document_meta_data_path_failures example_decode "notes.txt"
                    example_world)
             [x68; x69] (new_exn PdfReadError "EOF marker not found"));
      vm_compute; reflexivity.
Defined.

(** X6: for a reader whose information dictionary is present, the
    record has exactly the six keys [num_pages], [title], [author],
    [subject], [producer], [creator] (no [page]); [num_pages] is the
    length of the page list, so never negative, and each other entry is
    the dictionary's value or [None] when that entry is missing,
    independently of the others. *)
Theorem get_document_meta_data_record
    (pdf_decode : list byte -> exn + PdfReader) (r : PdfReader)
    (d : DocumentInformation) (w : World) :
  metadata r = Some d ->
  exists md,
    get_document_meta_data pdf_decode (DReader r) w = (Return (Some md), w)
    /\ dom md =
         ({["num_pages"; "title"; "author"; "subject"; "producer"; "creator"]}
            : gset string)
    /\ (exists n, page_count md = Some (VInt n) /\ 0 <= n
                  /\ n = Z.of_nat (length (pages r)))
    /\ md !! "title" = Some (of_optional (title d))
    /\ md !! "author" = Some (of_optional (author d))
    /\ md !! "subject" = Some (of_optional (subject d))
    /\ md !! "producer" = Some (of_optional (producer d))
    /\ md !! "creator" = Some (of_optional (creator d))
    /\ md !! "page" = None.
Proof.
  intros Hm. exists (metadata_record (length (pages r)) d).
  split; [now apply get_document_meta_data_reader|].
  unfold metadata_record, page_count.
  split; [rewrite !dom_insert_L, dom_empty_L; set_solver|].
  split; [exists (Z.of_nat (length (pages r))); split; [|lia]|];
    repeat split; now simplify_map_eq.
Qed.

Lemma get_document_meta_data_record_witness :
  metadata sparse_reader = Some sparse_info
  /\ exists md,
       get_document_meta_data example_decode (DReader sparse_reader) example_world =
         (Return (Some md), example_world)
       /\ page_count md = Some (VInt 0)
       /\ md !! "title" = Some VNone
       /\ md !! "author" = Some (VStr "Author Name")
       /\ md !! "page" = None.
Proof.
  split; [reflexivity|].
  destruct (get_document_meta_data_record example_decode sparse_reader sparse_info
              example_world eq_refl)
    as (md & Hrun & _ & (n & Hn & _ & Hlen) & Ht & Ha & _ & _ & _ & Hp).
  exists md. split; [exact Hrun|]. split; [now rewrite Hn, Hlen|].
  split; [exact Ht|]. split; [exact Ha | exact Hp].
Defined.

(** X7: [get_document_meta_data] is read-only: whatever its argument and
    its outcome, every file has the bytes it had, no file appears or
    disappears, and the refusals of the file system are the same. *)
Theorem get_document_meta_data_read_only
    (pdf_decode : list byte -> exn + PdfReader) (doc : document) (w : World) :
  files (snd (get_document_meta_data pdf_decode doc w)) = files w
  /\ denied (snd (get_document_meta_data pdf_decode doc w)) = denied w.
Proof.
  destruct (writes_only_get_document_meta_data pdf_decode nowhere doc w)
    as (Hd & _ & _ & Hf).
  split; [|exact Hd]. apply map_eq. intros p. apply Hf. intros [].
Qed.

(** ** The Page Extractor, in full *)

(** X8: a path that exists and decodes behaves as the reader it decodes
    to, after the one event of opening it: for the Metadata Extractor,
    and for the Page Extractor on every page number of at least 1. *)
Theorem path_argument_is_opened_reader
    (pdf_decode : list byte -> exn + PdfReader) (p : Path) (bytes : list byte)
    (r : PdfReader) (n : Z) (storage_path : Path) (w : World) :
  files w !! p = Some bytes ->
  pdf_decode bytes = inr r ->
  1 <= n ->
  get_document_meta_data pdf_decode (DPath p) w =
    get_document_meta_data pdf_decode (DReader r) (log (EvOpenPdf p) w)
  /\ extract_data_from_page pdf_decode (DPath p) n storage_path w =
       extract_data_from_page pdf_decode (DReader r) n storage_path
         (log (EvOpenPdf p) w).
Proof.
  intros Hf Hd Hn.
  pose proof (read_document_decoded pdf_decode p w bytes r Hf Hd) as Hopen.
  split.
  - unfold get_document_meta_data.
    rewrite (bind_Return _ _ w (Some r) (log (EvOpenPdf p) w)).
    + now rewrite (bind_Return _ _ (log (EvOpenPdf p) w) (Some r) (log (EvOpenPdf p) w)).
    + now rewrite (bind_Return _ _ _ _ _ (get_document_found p w (mk_is_Some _ _ Hf))).
  - unfold extract_data_from_page.
    destruct (n - 1 <? 0) eqn:Hlt; [apply Z.ltb_lt in Hlt; lia|].
    rewrite (bind_Return _ _ _ _ _ Hopen).
    now rewrite (bind_Return _ _ (log (EvOpenPdf p) w) (Some r) (log (EvOpenPdf p) w)).
Qed.

Lemma path_argument_is_opened_reader_witness :
  files example_world !! "report.pdf" = Some [x25; x50; x44; x46]
  /\ example_decode [x25; x50; x44; x46] = inr example_reader
  /\ 1 <= 2
  /\ extract_data_from_page example_decode (DPath "report.pdf") 2 "images" example_world =
       extract_data_from_page example_decode (DReader example_reader) 2 "images"
         (log (EvOpenPdf "report.pdf") example_world).
Proof.
  split; [vm_compute; reflexivity|]. split; [reflexivity|]. split; [lia|].
  apply (path_argument_is_opened_reader example_decode "report.pdf"
           [x25; x50; x44; x46] example_reader 2 "images" example_world);
    [vm_compute; reflexivity | reflexivity | lia].
Defined.

(** X9: with a page number of at least 1, a path where no file exists
    makes the Page Extractor raise [FileNotFoundError]: the hard failure
    of the Locator is not turned into [None], and nothing is opened,
    printed or written. *)
Theorem extract_data_from_page_missing_path_raises
    (pdf_decode : list byte -> exn + PdfReader) (p : Path) (n : Z)
    (storage_path : Path) (w : World) :
  1 <= n ->
  files w !! p = None ->
  extract_data_from_page pdf_decode (DPath p) n storage_path w =
    (Raise (new_exn FileNotFoundError ("File " ++ p ++ " not found")), w).
Proof.
  intros Hn Hf. unfold extract_data_from_page.
  destruct (n - 1 <? 0) eqn:Hlt; [apply Z.ltb_lt in Hlt; lia|].
  apply bind_Raise. unfold read_document.
  apply bind_Raise, get_document_missing, Hf.
Qed.

Lemma extract_data_from_page_missing_path_raises_witness :
  1 <= 1
  /\ files example_world !! "missing.pdf" = None
  /\ extract_data_from_page example_decode (DPath "missing.pdf") 1 "images" example_world =
       (Raise (new_exn FileNotFoundError "File missing.pdf not found"), example_world).
Proof.
  split; [lia|]. split; [vm_compute; reflexivity|].
  apply (extract_data_from_page_missing_path_raises example_decode "missing.pdf" 1
           "images" example_world); [lia | vm_compute; reflexivity].
Defined.

(** X10: the text of the page is extracted before its images: when
    [page.extract_text()] raises an [Exception], the Page Extractor
    returns [None] having only printed the diagnostic, and no image of
    the page is written. *)
Theorem extract_data_from_page_text_failure_writes_nothing
    (pdf_decode : list byte -> exn + PdfReader) (r : PdfReader)
    (d : DocumentInformation) (n : Z) (storage_path : Path) (w : World)
    (page : PageObject) (e : exn) :
  1 <= n ->
  metadata r = Some d ->
  pages r !! Z.to_nat (n - 1) = Some page ->
  page_text page = inl e ->
  is_Exception e = true ->
  extract_data_from_page pdf_decode (DReader r) n storage_path w =
    (Return None, log (EvPrint ("Error extracting text: " ++ exn_str e)) w).
Proof.
  intros Hn Hm Hpage Htext He.
  rewrite (extract_data_from_page_reader pdf_decode r d n storage_path w Hn Hm).
  unfold page_steps.
  rewrite (bind_Return _ _ _ _ _
             (pages_getitem_in_range (pages r) (n - 1) page w ltac:(lia) Hpage)).
  rewrite (bind_Raise _ _ w e w) by (unfold extract_text; now rewrite Htext).
  now rewrite He.
Qed.

Lemma extract_data_from_page_text_failure_writes_nothing_witness :
  1 <= 1
  /\ metadata garbled_reader = Some example_info
  /\ extract_data_from_page example_decode (DReader garbled_reader) 1 "images"
       example_world =
       (Return None,
        log (EvPrint "Error extracting text: Unexpected end of stream") example_world).
Proof.
  split; [lia|]. split; [reflexivity|].
  apply (extract_data_from_page_text_failure_writes_nothing example_decode
           garbled_reader example_info 1 "images" example_world
           {| page_text := inl (new_exn PdfReadError "Unexpected end of stream");
              page_images := inr [] |}
           (new_exn PdfReadError "Unexpected end of stream"));
    [lia | reflexivity | reflexivity | reflexivity | reflexivity].
Defined.

(** X11: on an open reader whose file has no information dictionary
    ([reader.metadata] is [None]), the Page Extractor raises
    [AttributeError] for every page number of at least 1, before the
    page is looked at: nothing is printed and no image is written. *)
Theorem extract_data_from_page_absent_metadata_raises
    (pdf_decode : list byte -> exn + PdfReader) (ps : list PageObject) (n : Z)
    (storage_path : Path) (w : World) :
  1 <= n ->
  extract_data_from_page pdf_decode (DReader {| metadata := None; pages := ps |}) n
    storage_path w =
    (Raise (new_exn AttributeError "'NoneType' object has no attribute 'title'"), w).
Proof.
  intros Hn. unfold extract_data_from_page.
  destruct (n - 1 <? 0) eqn:Hlt; [apply Z.ltb_lt in Hlt; lia|].
  reflexivity.
Qed.

Lemma extract_data_from_page_absent_metadata_raises_witness :
  1 <= 1
  /\ extract_data_from_page example_decode (DReader bare_reader) 1 "images" example_world =
       (Raise (new_exn AttributeError "'NoneType' object has no attribute 'title'"),
        example_world).
Proof.
  split; [lia|].
  apply (extract_data_from_page_absent_metadata_raises example_decode [example_page] 1
           "images" example_world).
  lia.
Defined.

(** X12: on an open reader the Page Extractor never returns [None]
    silently: when it does, a page step raised an [Exception] and the
    last thing done was to print the diagnostic with that error's
    text. *)
Theorem extract_data_from_page_None_has_diagnostic
    (pdf_decode : list byte -> exn + PdfReader) (r : PdfReader) (n : Z)
    (storage_path : Path) (w w' : World) :
  extract_data_from_page pdf_decode (DReader r) n storage_path w = (Return None, w') ->
  exists e w1,
    page_steps r (n - 1) storage_path w = (Raise e, w1)
    /\ is_Exception e = true
    /\ w' = log (EvPrint ("Error extracting text: " ++ exn_str e)) w1.
Proof.
  intros Hrun.
  destruct (Z.lt_ge_cases n 1) as [Hlt|Hn].
  - unfold extract_data_from_page in Hrun.
    destruct (n - 1 <? 0) eqn:Hneg; [discriminate Hrun|].
    apply Z.ltb_ge in Hneg. lia.
  - destruct r as [[d|] ps].
    + rewrite (extract_data_from_page_reader pdf_decode
                 {| metadata := Some d; pages := ps |} d n storage_path w Hn eq_refl)
        in Hrun.
      destruct (page_steps _ (n - 1) storage_path w) as [[ti|e] w1]; [discriminate Hrun|].
      destruct (is_Exception e) eqn:He; [|discriminate Hrun].
      exists e, w1. split; [reflexivity|]. split; [exact He|].
      now injection Hrun as <-.
    + unfold extract_data_from_page in Hrun.
      destruct (n - 1 <? 0); discriminate Hrun.
Qed.

Lemma extract_data_from_page_None_has_diagnostic_witness :
  extract_data_from_page example_decode (DReader example_reader) 11 "images"
    example_world =
    (Return None,
     log (EvPrint "Error extracting text: sequence index out of range") example_world)
  /\ exists e w1,
       page_steps example_reader (11 - 1) "images" example_world = (Raise e, w1)
       /\ is_Exception e = true
       /\ log (EvPrint "Error extracting text: sequence index out of range")
            example_world =
          log (EvPrint ("Error extracting text: " ++ exn_str e)) w1.
Proof.
  assert (Hrun : extract_data_from_page example_decode (DReader example_reader) 11
                   "images" example_world =
                   (Return None,
                    log (EvPrint "Error extracting text: sequence index out of range")
                      example_world))
    by (vm_compute; reflexivity).
  split; [exact Hrun|].
  exact (extract_data_from_page_None_has_diagnostic example_decode example_reader 11
           "images" example_world _ Hrun).
Defined.

(** X13: whatever its arguments and its outcome, the Page Extractor
    removes no file and changes no file other than those named
    [storage_path / "{count}_{name}"]; the trace of effects is only
    extended. *)
Theorem extract_data_from_page_touches_only_image_files
    (pdf_decode : list byte -> exn + PdfReader) (reader : document) (n : Z)
    (storage_path : Path) (w : World) :
  (forall p, is_Some (files w !! p) ->
     is_Some (files (snd (extract_data_from_page pdf_decode reader n storage_path w)) !! p))
  /\ (forall p,
        (forall count img, p <> image_path storage_path count img) ->
        files (snd (extract_data_from_page pdf_decode reader n storage_path w)) !! p =
          files w !! p)
  /\ (exists evs,
        events (snd (extract_data_from_page pdf_decode reader n storage_path w)) =
          (events w ++ evs)%list).
Proof.
  destruct (writes_only_extract_data_from_page pdf_decode reader n storage_path w)
    as (_ & Hev & Hkeep & Hframe).
  split; [exact Hkeep|]. split; [|exact Hev].
  intros p Hp. apply Hframe. intros (count & img & ->). now apply (Hp count img).
Qed.

(** ** The Image Extractor, in full *)

Lemma apply_writes_denied ws : forall w, denied (apply_writes ws w) = denied w.
Proof. induction ws as [|pd ws IH]; intros w; [reflexivity|]. simpl. now rewrite IH. Qed.

Lemma apply_writes_same_files ws : forall w,
  (forall pd, pd ∈ ws -> files w !! pd.1 = Some pd.2) ->
  files (apply_writes ws w) = files w.
Proof.
  induction ws as [|pd ws IH]; intros w Hsame; [reflexivity|].
  assert (Hst : files (store pd.1 pd.2 w) = files w)
    by (simpl; apply insert_id, Hsame; left).
  simpl. rewrite IH; [exact Hst|].
  intros pd' Hin. rewrite Hst. apply Hsame. now right.
Qed.

Lemma image_paths_NoDup storage_path imgs :
  NoDup (imap (image_path storage_path) imgs).
Proof.
  apply NoDup_alt. intros i j p Hi Hj.
  rewrite list_lookup_imap in Hi. rewrite list_lookup_imap in Hj.
  destruct (imgs !! i) as [a|]; [|discriminate].
  destruct (imgs !! j) as [b|]; [|discriminate].
  simpl in Hi, Hj. injection Hi as <-. injection Hj as Hj.
  symmetry in Hj. now apply image_path_inj in Hj.
Qed.

Lemma first_refusal storage_path w (todo : list ImageFile) : forall count,
  (forall i img, todo !! i = Some img ->
     denied w !! image_path storage_path (count + i) img = None)
  \/ (exists k img cause,
        todo !! k = Some img
        /\ (forall i img', (i < k)%nat -> todo !! i = Some img' ->
              denied w !! image_path storage_path (count + i) img' = None)
        /\ denied w !! image_path storage_path (count + k) img = Some cause).
Proof.
  induction todo as [|x rest IH]; intros count.
  - left. intros i img Hi. discriminate.
  - destruct (denied w !! image_path storage_path count x) as [cause|] eqn:Hx.
    + right. exists 0%nat, x, cause. rewrite Nat.add_0_r.
      split; [reflexivity|]. split; [intros i img' Hlt; lia | exact Hx].
    + destruct (IH (S count)) as [Hfree | (k & img & cause & Hk & Hfree & Hden)].
      * left. intros [|i] img Hi; simpl in Hi.
        -- injection Hi as <-. now rewrite Nat.add_0_r.
        -- rewrite Nat.add_succ_r. now apply Hfree.
      * right. exists (S k), img, cause. split; [exact Hk|]. split.
        -- intros [|i] img' Hlt Hi; simpl in Hi.
           ++ injection Hi as <-. now rewrite Nat.add_0_r.
           ++ rewrite Nat.add_succ_r. apply Hfree; [lia | exact Hi].
        -- now rewrite Nat.add_succ_r.
Qed.

Lemma extract_image_loop_refused_any storage_path todo :
  forall k count images w img cause,
  todo !! k = Some img ->
  (forall i img', (i < k)%nat -> todo !! i = Some img' ->
     denied w !! image_path storage_path (count + i) img' = None) ->
  denied w !! image_path storage_path (count + k) img = Some cause ->
  extract_image_loop storage_path todo count images w =
    (Raise (refusal cause),
     apply_writes (numbered_writes storage_path count (take k todo)) w).
Proof.
  induction todo as [|x rest IH]; intros k count images w img cause Hk Hfree Hden;
    [discriminate|].
  destruct k as [|k]; simpl in *.
  - injection Hk as ->. rewrite Nat.add_0_r in Hden.
    unfold bind at 1. unfold try_except, bind, write_file, refusal. rewrite Hden.
    now destruct (is_Exception cause).
  - pose proof (Hfree 0%nat x ltac:(lia) eq_refl) as H0. rewrite Nat.add_0_r in H0.
    unfold bind at 1. unfold try_except, bind, write_file. rewrite H0. simpl.
    apply (IH k (S count) _ _ img cause Hk).
    + intros i img' Hlt Hi. simpl. rewrite <- Nat.add_succ_r.
      apply Hfree; [lia | exact Hi].
    + simpl. now rewrite <- Nat.add_succ_r.
Qed.

Lemma extract_image_refused_any page storage_path imgs w k img cause :
  page_images page = inr imgs ->
  imgs !! k = Some img ->
  (forall i img', (i < k)%nat -> imgs !! i = Some img' ->
     denied w !! image_path storage_path i img' = None) ->
  denied w !! image_path storage_path k img = Some cause ->
  extract_image page storage_path w =
    (Raise (refusal cause),
     apply_writes (numbered_writes storage_path 0 (take k imgs)) w).
Proof.
  intros Himgs Hk Hfree Hden. unfold extract_image, bind, get_images.
  rewrite Himgs. simpl.
  now apply (extract_image_loop_refused_any storage_path imgs k 0 [] w img cause).
Qed.

Lemma extract_image_Return_inv page storage_path w paths w' :
  extract_image page storage_path w = (Return paths, w') ->
  exists imgs,
    page_images page = inr imgs
    /\ (forall i img, imgs !! i = Some img ->
          denied w !! image_path storage_path i img = None)
    /\ paths = imap (image_path storage_path) imgs
    /\ w' = apply_writes (numbered_writes storage_path 0 imgs) w.
Proof.
  intros Hrun. destruct (page_images page) as [e|imgs] eqn:Himgs.
  - unfold extract_image, bind, get_images in Hrun. rewrite Himgs in Hrun.
    discriminate Hrun.
  - exists imgs. split; [reflexivity|].
    destruct (first_refusal storage_path w imgs 0)
      as [Hfree | (k & img & cause & Hk & Hfree & Hden)].
    + split; [exact Hfree|].
      rewrite (extract_image_all_written page storage_path imgs w Himgs Hfree) in Hrun.
      now injection Hrun as <- <-.
    + rewrite (extract_image_refused_any page storage_path imgs w k img cause
                 Himgs Hk Hfree Hden) in Hrun.
      discriminate Hrun.
Qed.

(** X14: [extract_image] returns a list of paths exactly when the page's
    images can be enumerated and none of their target files is refused
    by the file system; a single refusal makes the whole call raise. *)
Theorem extract_image_returns_iff
    (page : PageObject) (storage_path : Path) (w : World) :
  (exists paths w', extract_image page storage_path w = (Return paths, w'))
  <-> (exists imgs,
         page_images page = inr imgs
         /\ forall i img, imgs !! i = Some img ->
              denied w !! image_path storage_path i img = None).
Proof.
  split.
  - intros (paths & w' & Hrun).
    apply extract_image_Return_inv in Hrun as (imgs & Himgs & Hfree & _).
    now exists imgs.
  - intros (imgs & Himgs & Hfree). eexists _, _.
    now apply (extract_image_all_written page storage_path imgs w).
Qed.

(** X15: what [extract_image] can raise.  Either [page.images] raised
    and the error passes as it is, nothing written; or the first
    refused write, of image [k], stopped the loop after images
    [0 .. k-1] were written: a refusal deriving from [Exception] comes
    out as [ImageExtractionError] with the refusal's text in its message
    and the refusal as context, any other passes as it is. *)
Theorem extract_image_raise_inversion
    (page : PageObject) (storage_path : Path) (w w' : World) (e : exn) :
  extract_image page storage_path w = (Raise e, w') ->
  (page_images page = inl e /\ w' = w)
  \/ (exists imgs k img cause,
        page_images page = inr imgs
        /\ imgs !! k = Some img
        /\ (forall i img', (i < k)%nat -> imgs !! i = Some img' ->
              denied w !! image_path storage_path i img' = None)
        /\ denied w !! image_path storage_path k img = Some cause
        /\ (is_Exception cause = true ->
              e = Exn ImageExtractionError
                    ("Error extracting image: " ++ exn_str cause) (Some cause))
        /\ (is_Exception cause = false -> e = cause)
        /\ w' = apply_writes (numbered_writes storage_path 0 (take k imgs)) w).
Proof.
  intros Hrun. destruct (page_images page) as [e0|imgs] eqn:Himgs.
  - left. unfold extract_image, bind, get_images in Hrun. rewrite Himgs in Hrun.
    now injection Hrun as <- <-.
  - right.
    destruct (first_refusal storage_path w imgs 0)
      as [Hfree | (k & img & cause & Hk & Hfree & Hden)].
    + rewrite (extract_image_all_written page storage_path imgs w Himgs Hfree) in Hrun.
      discriminate Hrun.
    + rewrite (extract_image_refused_any page storage_path imgs w k img cause
                 Himgs Hk Hfree Hden) in Hrun.
      injection Hrun as <- <-.
      exists imgs, k, img, cause. unfold refusal.
      repeat (split; [first [reflexivity | assumption]|]).
      split; [|split; [|reflexivity]]; intros ->; reflexivity.
Qed.

Lemma extract_image_raise_inversion_witness :
  extract_image example_page "images" interrupted_world =
    (Raise (new_exn KeyboardInterrupt ""), interrupted_world)
  /\ ((page_images example_page = inl (new_exn KeyboardInterrupt "")
       /\ interrupted_world = interrupted_world)
      \/ (exists imgs k img cause,
            page_images example_page = inr imgs
            /\ imgs !! k = Some img
            /\ (forall i img', (i < k)%nat -> imgs !! i = Some img' ->
                  denied interrupted_world !! image_path "images" i img' = None)
            /\ denied interrupted_world !! image_path "images" k img = Some cause
            /\ (is_Exception cause = true ->
                  new_exn KeyboardInterrupt "" =
                    Exn ImageExtractionError
                      ("Error extracting image: " ++ exn_str cause) (Some cause))
            /\ (is_Exception cause = false -> new_exn KeyboardInterrupt "" = cause)
            /\ interrupted_world =
                 apply_writes (numbered_writes "images" 0 (take k imgs))
                   interrupted_world)).
Proof.
  assert (Hrun : extract_image example_page "images" interrupted_world =
                   (Raise (new_exn KeyboardInterrupt ""), interrupted_world))
    by (vm_compute; reflexivity).
  split; [exact Hrun|].
  exact (extract_image_raise_inversion example_page "images" interrupted_world _ _ Hrun).
Defined.

(** X16: the paths [extract_image] returns are pairwise distinct and as
    many as the page has images, whatever the images are called: two
    images of one page never share a file, even under the same name. *)
Theorem extract_image_paths_distinct
    (page : PageObject) (storage_path : Path) (w w' : World) (paths : list Path) :
  extract_image page storage_path w = (Return paths, w') ->
  NoDup paths
  /\ exists imgs, page_images page = inr imgs /\ length paths = length imgs.
Proof.
  intros Hrun.
  apply extract_image_Return_inv in Hrun as (imgs & Himgs & _ & -> & _).
  split; [apply image_paths_NoDup|].
  exists imgs. split; [exact Himgs | apply length_imap].
Qed.

Lemma extract_image_paths_distinct_witness :
  extract_image twins_page "images" example_world =
    (Return ["images/0_Im0.png"; "images/1_Im0.png"],
     store "images/1_Im0.png" [x02] (store "images/0_Im0.png" [x01] example_world))
  /\ NoDup ["images/0_Im0.png"; "images/1_Im0.png"]
  /\ exists imgs,
       page_images twins_page = inr imgs
       /\ length ["images/0_Im0.png"; "images/1_Im0.png"] = length imgs.
Proof.
  assert (Hrun : extract_image twins_page "images" example_world =
                   (Return ["images/0_Im0.png"; "images/1_Im0.png"],
                    store "images/1_Im0.png" [x02]
                      (store "images/0_Im0.png" [x01] example_world)))
    by (vm_compute; reflexivity).
  split; [exact Hrun|].
  exact (extract_image_paths_distinct twins_page "images" example_world _ _ Hrun).
Defined.

(** X17: extracting the same page into the same directory a second time
    returns the same paths and leaves every file as the first call left
    it: the files are overwritten with the same bytes, none is added. *)
Theorem extract_image_rerun_same_files
    (page : PageObject) (storage_path : Path) (imgs : list ImageFile) (w : World) :
  page_images page = inr imgs ->
  (forall i img, imgs !! i = Some img ->
     denied w !! image_path storage_path i img = None) ->
  exists paths w1 w2,
    extract_image page storage_path w = (Return paths, w1)
    /\ extract_image page storage_path w1 = (Return paths, w2)
    /\ files w2 = files w1.
Proof.
  intros Himgs Hfree.
  exists (imap (image_path storage_path) imgs),
         (apply_writes (numbered_writes storage_path 0 imgs) w),
         (apply_writes (numbered_writes storage_path 0 imgs)
            (apply_writes (numbered_writes storage_path 0 imgs) w)).
  split; [now apply extract_image_all_written|]. split.
  - apply extract_image_all_written; [exact Himgs|].
    intros i img Hi. rewrite apply_writes_denied. now apply Hfree.
  - apply apply_writes_same_files. intros pd Hin.
    apply list_elem_of_lookup in Hin as [j Hj].
    rewrite numbered_writes_lookup in Hj.
    destruct (imgs !! j) as [y|] eqn:Hy; [|discriminate].
    injection Hj as <-. simpl.
    now apply (numbered_writes_content storage_path imgs 0 w j y).
Qed.

Lemma extract_image_rerun_same_files_witness :
  page_images example_page = inr two_images
  /\ exists paths w1 w2,
       extract_image example_page "images" example_world = (Return paths, w1)
       /\ extract_image example_page "images" w1 = (Return paths, w2)
       /\ files w2 = files w1.
Proof.
  split; [reflexivity|].
  apply (extract_image_rerun_same_files example_page "images" two_images example_world
           eq_refl).
  intros i img _. apply lookup_empty.
Defined.

(** X18: the counter restarts at 0 in every call, so two pages extracted
    into the same directory share file names: when image [i] of the
    second page has the name of image [i] of the first, both calls
    return the same path for it and the second call replaces the first
    page's bytes in that file. *)
Theorem extract_image_overwrites_same_name
    (first second : PageObject) (storage_path : Path)
    (imgs1 imgs2 : list ImageFile) (w : World) (i : nat) (a b : ImageFile) :
  page_images first = inr imgs1 ->
  page_images second = inr imgs2 ->
  (forall j img, imgs1 !! j = Some img ->
     denied w !! image_path storage_path j img = None) ->
  (forall j img, imgs2 !! j = Some img ->
     denied w !! image_path storage_path j img = None) ->
  imgs1 !! i = Some a ->
  imgs2 !! i = Some b ->
  name a = name b ->
  exists paths1 paths2 w1 w2,
    extract_image first storage_path w = (Return paths1, w1)
    /\ extract_image second storage_path w1 = (Return paths2, w2)
    /\ paths1 !! i = Some (image_path storage_path i a)
    /\ paths2 !! i = Some (image_path storage_path i a)
    /\ files w1 !! image_path storage_path i a = Some (data a)
    /\ files w2 !! image_path storage_path i a = Some (data b).
Proof.
  intros H1 H2 Hfree1 Hfree2 Ha Hb Hname.
  assert (Hpath : image_path storage_path i a = image_path storage_path i b)
    by (unfold image_path; now rewrite Hname).
  exists (imap (image_path storage_path) imgs1), (imap (image_path storage_path) imgs2),
         (apply_writes (numbered_writes storage_path 0 imgs1) w),
         (apply_writes (numbered_writes storage_path 0 imgs2)
            (apply_writes (numbered_writes storage_path 0 imgs1) w)).
  split; [now apply extract_image_all_written|]. split.
  { apply extract_image_all_written; [exact H2|].
    intros j img Hj. rewrite apply_writes_denied. now apply Hfree2. }
  split; [now rewrite list_lookup_imap, Ha|].
  split; [now rewrite list_lookup_imap, Hb, Hpath|].
  split; [now apply (numbered_writes_content storage_path imgs1 0 w i a)|].
  rewrite Hpath.
  now apply (numbered_writes_content storage_path imgs2 0 _ i b).
Qed.

Lemma extract_image_overwrites_same_name_witness :
  name {| name := "img1.png"; data := [x89; x50] |} =
    name {| name := "img1.png"; data := [xff; xd8] |}
  /\ exists paths1 paths2 w1 w2,
       extract_image example_page "images" example_world = (Return paths1, w1)
       /\ extract_image cover_page "images" w1 = (Return paths2, w2)
       /\ paths1 !! 0%nat = Some "images/0_img1.png"
       /\ paths2 !! 0%nat = Some "images/0_img1.png"
       /\ files w1 !! "images/0_img1.png" = Some [x89; x50]
       /\ files w2 !! "images/0_img1.png" = Some [xff; xd8].
Proof.
  split; [reflexivity|].
  apply (extract_image_overwrites_same_name example_page cover_page "images"
           two_images [ {| name := "img1.png"; data := [xff; xd8] |} ] example_world
           0%nat {| name := "img1.png"; data := [x89; x50] |}
           {| name := "img1.png"; data := [xff; xd8] |});
    try reflexivity; intros j img _; apply lookup_empty.
Defined.
